(** * canvas-reminder: the eligibility filter, the collector and the
      notification formatter of [canvas_test.py], and the simpler script
      [check_assignments.py], embedded in Rocq.

    The Python values the code handles are modelled as the interpreter
    has them:
    - a JSON object key is absent, [null], or carries a value ([field]);
    - a JSON number is an [int] of any size or a binary64 [float]
      ([pynum]); floats are the IEEE 754 values of [SpecFloat], with the
      rounding written out by that library;
    - an exception is a value of [exn], a computation that may raise
      returns a [py_result];
    - a [datetime] is naive or timezone-aware, and ordering a naive one
      against an aware one raises [TypeError];
    - a [str] is kept as its UTF-8 bytes, [len] counts code points. *)

From Stdlib Require Import ZArith List String Ascii Bool Lia.
From Stdlib Require Import Floats.SpecFloat.
From stdpp Require Import base gmap.

Import ListNotations.
Local Open Scope string_scope.
Local Open Scope Z_scope.

(** ** Python values *)

(** A key of a JSON object: absent, present with [null], or present with
    a value.  [d.get(k)] does not tell the first two apart,
    [d.get(k, default)] and [d[k]] do. *)
Inductive field (A : Type) : Type :=
| Absent
| Null
| Val (a : A).
Arguments Absent {A}.
Arguments Null {A}.
Arguments Val {A} a.

(** The exceptions the code can meet. *)
Inductive exn : Type :=
| RuntimeError
| ZeroDivisionError
| OverflowError
| TypeError
| KeyError
| AttributeError
| ValueError.

Inductive py_result (A : Type) : Type :=
| Ok (a : A)
| Raise (e : exn).
Arguments Ok {A} a.
Arguments Raise {A} e.

(** [d.get(k)]: [None] for an absent key and for [null]. *)
Definition get {A} (f : field A) : option A :=
  match f with
  | Val a => Some a
  | Absent | Null => None
  end.

(** [d.get(k, default)]: the default only for an absent key. *)
Definition get_default {A} (f : field A) (default : A) : option A :=
  match f with
  | Absent => Some default
  | Null => None
  | Val a => Some a
  end.

(** [d[k]]: [KeyError] for an absent key. *)
Definition getitem {A} (f : field A) : py_result (option A) :=
  match f with
  | Absent => Raise KeyError
  | Null => Ok None
  | Val a => Ok (Some a)
  end.

(** Sequencing: an exception leaves at once. *)
Definition and_then {A B} (r : py_result A) (k : A -> py_result B)
  : py_result B :=
  match r with
  | Ok a => k a
  | Raise e => Raise e
  end.

(** [try: body / except Exception: handler]: every exception of [exn] is
    an [Exception]. *)
Definition try_except {A} (body : py_result A) (handler : exn -> py_result A)
  : py_result A :=
  match body with
  | Ok a => Ok a
  | Raise e => handler e
  end.

(** [[f(x) for x in xs]] where [f] may raise. *)
Fixpoint map_result {A B} (f : A -> py_result B) (xs : list A)
  : py_result (list B) :=
  match xs with
  | [] => Ok []
  | x :: rest =>
      and_then (f x) (fun y =>
      and_then (map_result f rest) (fun ys => Ok (y :: ys)))
  end.

(** [[x for x in xs if f(x)]] where [f] may raise. *)
Fixpoint filter_result {A} (f : A -> py_result bool) (xs : list A)
  : py_result (list A) :=
  match xs with
  | [] => Ok []
  | x :: rest =>
      and_then (f x) (fun keep =>
      and_then (filter_result f rest) (fun ys =>
      Ok (if keep then x :: ys else ys)))
  end.

(** ** Numbers: [int] and binary64 [float] *)

Module Num.

Definition prec : Z := 53.
Definition emax : Z := 1024.

Abbreviation float := spec_float.

Inductive pynum : Type :=
| PyInt (n : Z)
| PyFloat (f : float).

(** [float(n)]: the nearest binary64 value, ties to even;
    [OverflowError] when the integer is too large. *)
Definition float_of_int (n : Z) : py_result float :=
  match binary_normalize prec emax n 0 false with
  | S754_infinity _ => Raise OverflowError
  | f => Ok f
  end.

(** A float literal with an integral value that is exactly
    representable, such as [50.0] or [100]. *)
Definition lit (n : Z) : float := binary_normalize prec emax n 0 false.

Definition to_float (x : pynum) : py_result float :=
  match x with
  | PyInt n => float_of_int n
  | PyFloat f => Ok f
  end.

Definition is_zero (f : float) : bool :=
  match f with
  | S754_zero _ => true
  | _ => false
  end.

(** Truth value of a number: everything but zero ([0], [0.0], [-0.0]);
    [nan] is true. *)
Definition truthy (x : pynum) : bool :=
  match x with
  | PyInt n => negb (n =? 0)
  | PyFloat f => negb (is_zero f)
  end.

(** [a / b] on two ints: the correctly rounded quotient. *)
Definition int_true_divide (a b : Z) : py_result float :=
  if b =? 0 then Raise ZeroDivisionError
  else if a =? 0 then Ok (S754_zero (b <? 0))
  else
    let '(q, e, l) := SFdiv_core_binary prec emax (Z.abs a) 0 (Z.abs b) 0 in
    match binary_round_aux prec emax (xorb (a <? 0) (b <? 0)) q e l with
    | S754_infinity _ => Raise OverflowError
    | f => Ok f
    end.

(** [x / y]: true division.  Two ints divide exactly and round once;
    otherwise both operands become floats first. *)
Definition truediv (x y : pynum) : py_result float :=
  match x, y with
  | PyInt a, PyInt b => int_true_divide a b
  | _, _ =>
      match to_float x with
      | Raise e => Raise e
      | Ok fx =>
          match to_float y with
          | Raise e => Raise e
          | Ok fy =>
              if is_zero fy then Raise ZeroDivisionError
              else Ok (SFdiv prec emax fx fy)
          end
      end
  end.

(** [f * 100] with a float on the left. *)
Definition mul100 (f : float) : float := SFmul prec emax f (lit 100).

(** [(score / points) * 100]. *)
Definition percent_of (score points : pynum) : py_result float :=
  match truediv score points with
  | Ok q => Ok (mul100 q)
  | Raise e => Raise e
  end.

(** The comparisons [<=], [<] and [==] of two floats. *)
Definition float_le (x y : float) : bool := SFleb x y.
Definition float_lt (x y : float) : bool := SFltb x y.
Definition float_eq (x y : float) : bool := SFeqb x y.

(** [|x| * 10^digits] rounded to the nearest integer, ties to even, on
    the exact value [m * 2^e] of the float. *)
Definition scaled_round (digits : nat) (m : positive) (e : Z) : Z :=
  let n := Z.pos m * 10 ^ Z.of_nat digits in
  match e with
  | Zneg p =>
      let d := 2 ^ Z.pos p in
      let q := n / d in
      let r := n mod d in
      match 2 * r ?= d with
      | Lt => q
      | Gt => q + 1
      | Eq => if Z.even q then q else q + 1
      end
  | _ => n * 2 ^ e
  end.

(** [round(x, 2)] on a float: the float nearest to the decimal with two
    places that is nearest to [x]; [nan], the infinities and the zeros
    round to themselves. *)
Definition round2 (x : float) : float :=
  match x with
  | S754_finite s m e =>
      let n := scaled_round 2 m e in
      if n =? 0 then S754_zero s
      else
        let '(q, e', l) := SFdiv_core_binary prec emax n 0 100 0 in
        binary_round_aux prec emax s q e' l
  | _ => x
  end.

End Num.

Import Num.

(** ** Strings *)

(** A [str] is stored as its UTF-8 encoding.  A byte [10xxxxxx] continues
    a code point, every other byte starts one. *)
Definition is_continuation (c : ascii) : bool :=
  let n := Z.of_nat (nat_of_ascii c) in (128 <=? n) && (n <? 192).

(** [len(s)]: the number of code points. *)
Fixpoint len (s : string) : Z :=
  match s with
  | EmptyString => 0
  | String c r => (if is_continuation c then 0 else 1) + len r
  end.

(** Truth value of a [str]: non-empty. *)
Definition str_truthy (s : string) : bool :=
  match s with
  | EmptyString => false
  | String _ _ => true
  end.

Definition newline : string := String (ascii_of_nat 10) EmptyString.

(** [sep.join(parts)]. *)
Fixpoint join (sep : string) (parts : list string) : string :=
  match parts with
  | [] => ""
  | [p] => p
  | p :: rest => p ++ sep ++ join sep rest
  end.

(** ** Datetimes *)

(** A [datetime] is naive (wall-clock fields only) or aware (with a UTC
    offset).  [t] is its position in microseconds: on the wall clock for
    a naive value, on the UTC time line for an aware one. *)
Inductive datetime : Type :=
| Naive (t : Z)
| Aware (t : Z).

(** [x <= y] on datetimes: ordering a naive value against an aware one
    raises [TypeError]. *)
Definition dt_le (x y : datetime) : py_result bool :=
  match x, y with
  | Naive a, Naive b => Ok (a <=? b)
  | Aware a, Aware b => Ok (a <=? b)
  | _, _ => Raise TypeError
  end.

(** The chained comparison [s <= d <= e]: [d <= e] is evaluated only
    when [s <= d] is true. *)
Definition between (s d e : datetime) : py_result bool :=
  match dt_le s d with
  | Raise x => Raise x
  | Ok false => Ok false
  | Ok true => dt_le d e
  end.

(** [any(s <= d <= e for s, e in ranges)]: stops at the first range that
    holds [d], and at the first comparison that raises. *)
Fixpoint any_between (d : datetime) (ranges : list (datetime * datetime))
  : py_result bool :=
  match ranges with
  | [] => Ok false
  | (s, e) :: rest =>
      match between s d e with
      | Raise x => Raise x
      | Ok true => Ok true
      | Ok false => any_between d rest
      end
  end.

(** ** Data model *)

Module Submission.
(** The embedded [submission] object.  [other_keys] names the keys the
    code never reads; they only make the object non-empty. *)
Record t : Type := mk {
  missing : field bool;
  late : field bool;
  score : field pynum;
  other_keys : list string
}.

(** [{}] *)
Definition empty : t := mk Absent Absent Absent [].

(** Truth value of the dict: it has a key. *)
Definition truthy (s : t) : bool :=
  match missing s, late s, score s, other_keys s with
  | Absent, Absent, Absent, [] => false
  | _, _, _, _ => true
  end.
End Submission.

Module Assignment.
Record t : Type := mk {
  id : field Z;
  name : field string;
  points_possible : field pynum;
  due_at : field string;
  grading_period_id : field Z;
  submission : field Submission.t;
  html_url : field string
}.
End Assignment.

Module Course.
Record t : Type := mk {
  id : field Z;
  name : field string
}.
End Course.

Module GradingPeriod.
Record t : Type := mk {
  id : field Z;
  title : field string;
  start_date : field string;
  end_date : field string
}.
End GradingPeriod.

(** [bool(v)] for an optional JSON boolean: [None] is false. *)
Definition truth (b : option bool) : bool :=
  match b with
  | Some true => true
  | _ => false
  end.

(** [a.get("submission") or {}] *)
Definition submission_or_empty (a : Assignment.t) : Submission.t :=
  match get (Assignment.submission a) with
  | Some s => if Submission.truthy s then s else Submission.empty
  | None => Submission.empty
  end.

Definition nonempty {A} (l : list A) : bool :=
  match l with
  | [] => false
  | _ :: _ => true
  end.

(** ** Core filtering logic *)

Section Filter.

(** [dateutil.parser.isoparse]. *)
Variable isoparse : string -> py_result datetime.

(** Lines 95-105 of [should_include_assignment]: the value of
    [belongs] when the window check is over.  [period_ids] is a set of
    the ids the resolver collected, each an [int] or [None]. *)
Definition belongs (a : Assignment.t) (period_ids : gset (option Z))
    (ranges : list (datetime * datetime)) : py_result bool :=
  let gp := get (Assignment.grading_period_id a) in
  let belongs :=
    match gp with
    | Some g => bool_decide (Some g ∈ period_ids)
    | None => false
    end in
  if negb belongs && nonempty ranges then
    let due := get (Assignment.due_at a) in
    match due with
    | Some due =>
        if str_truthy due then
          try_except
            (and_then (isoparse due) (fun d => any_between d ranges))
            (fun _ => Ok belongs)
        else Ok belongs
    | None => Ok belongs
    end
  else Ok belongs.

Definition should_include_assignment (a : Assignment.t)
    (period_ids : gset (option Z)) (ranges : list (datetime * datetime))
    (low_score_threshold_percent : float) : py_result bool :=
  let sub := submission_or_empty a in
  let missing := truth (get (Submission.missing sub)) in
  let score := get (Submission.score sub) in
  let points := get (Assignment.points_possible a) in
  and_then (belongs a period_ids ranges) (fun belongs =>
  if negb belongs then Ok false
  else if missing then Ok true
  else
    match score, points with
    | Some score, Some points =>
        if truthy points then
          try_except
            (and_then (percent_of score points) (fun p =>
             Ok (float_le p low_score_threshold_percent)))
            (fun _ => Ok false)
        else Ok false
    | _, _ => Ok false
    end).

End Filter.

(** The default of [low_score_threshold_percent]. *)
Definition default_threshold : float := lit 50.

(** ** An instance of [isoparse]

    The part of [isoparse] the examples run on: the formats
    [YYYY-MM-DD], [YYYY-MM-DDTHH:MM:SS] (both read as naive datetimes)
    and [YYYY-MM-DDTHH:MM:SSZ] (aware, UTC; how the LMS writes its
    dates).  The library reads more of ISO 8601; here every other
    string is rejected. *)
Module IsoParse.

Definition digit (c : ascii) : option Z :=
  let n := Z.of_nat (nat_of_ascii c) in
  if (48 <=? n) && (n <=? 57) then Some (n - 48) else None.

Definition two (a b : ascii) : option Z :=
  x ← digit a; y ← digit b; Some (10 * x + y).

Definition four (a b c d : ascii) : option Z :=
  x ← two a b; y ← two c d; Some (100 * x + y).

Definition is_leap (y : Z) : bool :=
  ((y mod 4 =? 0) && negb (y mod 100 =? 0)) || (y mod 400 =? 0).

Definition days_in_month (y m : Z) : Z :=
  if m =? 2 then (if is_leap y then 29 else 28)
  else if (m =? 4) || (m =? 6) || (m =? 9) || (m =? 11) then 30
  else 31.

(** Days from 1970-01-01 to the given date of the proleptic Gregorian
    calendar. *)
Definition days_from_civil (y m d : Z) : Z :=
  let y' := if m <=? 2 then y - 1 else y in
  let era := y' / 400 in
  let yoe := y' - era * 400 in
  let doy := (153 * (if m <=? 2 then m + 9 else m - 3) + 2) / 5 + d - 1 in
  let doe := yoe * 365 + yoe / 4 - yoe / 100 + doy in
  era * 146097 + doe - 719468.

Definition date (y m d : Z) : option Z :=
  if (1 <=? y) && (1 <=? m) && (m <=? 12) && (1 <=? d)
     && (d <=? days_in_month y m)
  then Some (days_from_civil y m d) else None.

Definition time (h mi s : Z) : option Z :=
  if (h <=? 23) && (mi <=? 59) && (s <=? 59)
  then Some (h * 3600 + mi * 60 + s) else None.

Definition micros (days secs : Z) : Z := (days * 86400 + secs) * 1000000.

Definition parse_date (cs : list ascii) : option Z :=
  match cs with
  | [y1; y2; y3; y4; "-"; m1; m2; "-"; d1; d2]%char =>
      y ← four y1 y2 y3 y4; m ← two m1 m2; d ← two d1 d2; date y m d
  | _ => None
  end.

Definition parse_time (cs : list ascii) : option Z :=
  match cs with
  | [h1; h2; ":"; m1; m2; ":"; s1; s2]%char =>
      h ← two h1 h2; mi ← two m1 m2; s ← two s1 s2; time h mi s
  | _ => None
  end.

Definition parse (s : string) : option datetime :=
  let cs := list_ascii_of_string s in
  let d := take 10 cs in
  match drop 10 cs with
  | [] => days ← parse_date d; Some (Naive (micros days 0))
  | "T"%char :: rest =>
      days ← parse_date d;
      match drop 8 rest with
      | [] => secs ← parse_time rest; Some (Naive (micros days secs))
      | ["Z"%char] =>
          secs ← parse_time (take 8 rest); Some (Aware (micros days secs))
      | _ => None
      end
  | _ => None
  end.

Definition isoparse (s : string) : py_result datetime :=
  match parse s with
  | Some d => Ok d
  | None => Raise ValueError
  end.

End IsoParse.

(** ** Structured output *)

Module Rec.
(** The dictionary built by [_assignment_to_record].  The formatter
    reads it with [get], so a key may also be absent. *)
Record t : Type := mk {
  course_id : field Z;
  course_name : field string;
  assignment_id : field Z;
  assignment_name : field string;
  status : field string;
  score : field pynum;
  points_possible : field pynum;
  percent : field float;
  due_at : field string;
  url : field string
}.
End Rec.

(** A dictionary entry written from a value that may be [None]. *)
Definition entry {A} (v : option A) : field A :=
  match v with
  | Some a => Val a
  | None => Null
  end.

(** Lines 145-150: [percent], with the [try] around the arithmetic. *)
Definition record_percent (score pts : option pynum)
  : py_result (option float) :=
  match score, pts with
  | Some score, Some pts =>
      if truthy pts then
        try_except
          (and_then (percent_of score pts) (fun p => Ok (Some (round2 p))))
          (fun _ => Ok None)
      else Ok None
  | _, _ => Ok None
  end.

(** Lines 152-157: the status label. *)
Definition record_status (sub : Submission.t) : string :=
  if truth (get (Submission.missing sub)) then "missing"
  else if truth (get (Submission.late sub)) then "late"
  else "low_score".

Definition _assignment_to_record (course : Course.t) (a : Assignment.t)
  : py_result Rec.t :=
  let sub := submission_or_empty a in
  let name := get_default (Assignment.name a) "Unnamed Assignment" in
  let score := get (Submission.score sub) in
  let pts := get (Assignment.points_possible a) in
  and_then (record_percent score pts) (fun percent =>
  let status := record_status sub in
  Ok
  {| Rec.course_id := entry (get (Course.id course));
     Rec.course_name := entry (get_default (Course.name course) "Unnamed Course");
     Rec.assignment_id := entry (get (Assignment.id a));
     Rec.assignment_name := entry name;
     Rec.status := Val status;
     Rec.score := entry score;
     Rec.points_possible := entry pts;
     Rec.percent := entry percent;
     Rec.due_at := entry (get (Assignment.due_at a));
     Rec.url := entry (get (Assignment.html_url a)) |}).

(** ** Grading period helpers *)

(** [str.upper], on the ASCII letters (the keywords it serves are
    ASCII); other characters stay as they are. *)
Definition upper_char (c : ascii) : ascii :=
  let n := nat_of_ascii c in
  if (97 <=? n)%nat && (n <=? 122)%nat then ascii_of_nat (n - 32) else c.

Fixpoint upper (s : string) : string :=
  match s with
  | EmptyString => EmptyString
  | String c r => String (upper_char c) (upper r)
  end.

(** [k in t] on strings. *)
Definition contains (t k : string) : bool :=
  match String.index 0 k t with
  | Some _ => true
  | None => false
  end.

Definition q3_q4_keywords : list string :=
  ["Q3"; "Q4"; "QUARTER 3"; "QUARTER 4"; "3RD QUARTER"; "4TH QUARTER"].

Definition _is_q3_q4 (title : option string) : bool :=
  let t := upper (match title with
                  | Some s => if str_truthy s then s else ""
                  | None => ""
                  end) in
  existsb (contains t) q3_q4_keywords.

(** The two shapes of the grading-period payload. *)
Inductive periods_payload : Type :=
| Wrapped (grading_periods : list GradingPeriod.t)
| Bare (periods : list GradingPeriod.t).

(** ** Computations on the world

    A request changes the [world] and yields a value or raises. *)
Definition M (world A : Type) : Type := world -> py_result A * world.

Definition ret {world A} (a : A) : M world A := fun w => (Ok a, w).

Definition bind {world A B} (m : M world A) (k : A -> M world B)
  : M world B :=
  fun w =>
    match m w with
    | (Ok a, w') => k a w'
    | (Raise e, w') => (Raise e, w')
    end.

Notation "'let*' x ':=' m 'in' k" := (bind m (fun x => k))
  (at level 10, x name, m at level 100, k at level 200).

(** Lift a computation that does not touch the world. *)
Definition lift {world A} (r : py_result A) : M world A := fun w => (r, w).

(** ** The collector, over the HTTP boundary

    The HTTP helpers of lines 31-50 are the boundary of the model: a
    request changes the [world] and yields a decoded payload, or fails.
    [request_json] turns every failure into [RuntimeError]. *)
Section Collector.

Variable isoparse : string -> py_result datetime.
Context {world : Type}.

(** The favourite courses, all pages; [None] when a request fails. *)
Variable http_courses : world -> option (list Course.t) * world.
(** The grading periods of a course. *)
Variable http_grading_periods :
  option Z -> world -> option periods_payload * world.
(** The assignments of a course with their submissions, all pages. *)
Variable http_assignments :
  option Z -> world -> option (list Assignment.t) * world.

(** [request_json]/[get_all_pages]: any failure is a [RuntimeError]. *)
Definition request {A} (http : world -> option A * world) : M world A :=
  fun w =>
    match http w with
    | (Some a, w') => (Ok a, w')
    | (None, w') => (Raise RuntimeError, w')
    end.

Definition get_courses : M world (list Course.t) := request http_courses.

Definition _get_q3_q4_periods (course_id : option Z)
  : M world (list GradingPeriod.t) :=
  let* payload := request (http_grading_periods course_id) in
  let periods :=
    match payload with
    | Wrapped ps => ps
    | Bare ps => ps
    end in
  ret (filter (fun p => _is_q3_q4 (get (GradingPeriod.title p))) periods).

(** [p["id"] for p in ... if "id" in p]: a key that is present with
    [null] yields [None]. *)
Definition period_id (p : GradingPeriod.t) : list (option Z) :=
  match GradingPeriod.id p with
  | Absent => []
  | Null => [None]
  | Val i => [Some i]
  end.

Definition get_q3_q4_period_ids (course_id : option Z)
  : M world (list (option Z)) :=
  let* periods := _get_q3_q4_periods course_id in
  ret (flat_map period_id periods).

(** The body of the loop of [get_q3_q4_date_ranges]: what one period
    appends to [out]. *)
Definition period_range (p : GradingPeriod.t)
  : py_result (list (datetime * datetime)) :=
  match get (GradingPeriod.start_date p), get (GradingPeriod.end_date p) with
  | Some s, Some e =>
      if str_truthy s && str_truthy e then
        try_except
          (and_then (isoparse s) (fun ds =>
           and_then (isoparse e) (fun de => Ok [(ds, de)])))
          (fun _ => Ok [])
      else Ok []
  | _, _ => Ok []
  end.

Definition get_q3_q4_date_ranges (course_id : option Z)
  : M world (list (datetime * datetime)) :=
  let* periods := _get_q3_q4_periods course_id in
  let* out := lift (map_result period_range periods) in
  ret (concat out).

Definition get_assignments (course_id : option Z)
  : M world (list Assignment.t) :=
  let* ids := get_q3_q4_period_ids course_id in
  let pids : gset (option Z) := list_to_set ids in
  let* ranges := get_q3_q4_date_ranges course_id in
  if bool_decide (pids = ∅) && negb (nonempty ranges) then ret []
  else
    let* pages := request (http_assignments course_id) in
    lift (filter_result
            (fun a => should_include_assignment isoparse a pids ranges
                        default_threshold)
            pages).

(** The loop of [collect_results], with [results] as it stands. *)
Fixpoint collect_loop (courses : list Course.t) (results : list Rec.t)
  : M world (list Rec.t) :=
  match courses with
  | [] => ret results
  | c :: rest =>
      fun w =>
        match getitem (Course.id c) with
        | Raise e => (Raise e, w)
        | Ok course_id =>
            match get_assignments course_id w with
            | (Raise RuntimeError, w') => collect_loop rest results w'
            | (Raise e, w') => (Raise e, w')
            | (Ok assignments, w') =>
                match map_result (_assignment_to_record c) assignments with
                | Raise e => (Raise e, w')
                | Ok records => collect_loop rest (results ++ records) w'
                end
            end
        end
  end.

Definition collect_results : M world (list Rec.t) :=
  let* courses := get_courses in
  collect_loop courses [].

End Collector.

(** ** Discord webhook integration *)

(** Decimal digits of a non-negative integer. *)
Fixpoint decimal_aux (fuel : nat) (n : Z) (acc : string) : string :=
  match fuel with
  | O => acc
  | S fuel' =>
      let acc' := String (ascii_of_nat (Z.to_nat (48 + n mod 10))) acc in
      if n <? 10 then acc' else decimal_aux fuel' (n / 10) acc'
  end.

Definition decimal (n : Z) : string :=
  decimal_aux (S (Z.to_nat (Z.log2 n))) n "".

(** The last [digits] decimal digits of [n], zero-padded. *)
Fixpoint fraction (digits : nat) (n : Z) (acc : string) : string :=
  match digits with
  | O => acc
  | S d =>
      fraction d (n / 10)
        (String (ascii_of_nat (Z.to_nat (48 + n mod 10))) acc)
  end.

(** [format(x, ".<digits>f")] on a float. *)
Definition format_fixed (digits : nat) (x : float) : string :=
  let sign (s : bool) := if s then "-" else "" in
  let shown (s : bool) (n : Z) :=
    (sign s ++ decimal (n / 10 ^ Z.of_nat digits)
       ++ match digits with
          | O => ""
          | _ => "." ++ fraction digits n ""
          end)%string in
  match x with
  | S754_nan => "nan"
  | S754_infinity s => (sign s ++ "inf")%string
  | S754_zero s => shown s 0
  | S754_finite s m e => shown s (scaled_round digits m e)
  end.

Definition _format_percent (record : Rec.t) : string :=
  match get (Rec.percent record) with
  | None => "N/A"
  | Some percent => (format_fixed 2 percent ++ "%")%string
  end.

(** A value inside an f-string: [None] prints as its name. *)
Definition fmt (v : option string) : string :=
  match v with
  | Some s => s
  | None => "None"
  end.

(** [s.replace("_", " ")] *)
Fixpoint replace_underscores (s : string) : string :=
  match s with
  | EmptyString => EmptyString
  | String c r =>
      String (if Ascii.eqb c "_" then " "%char else c) (replace_underscores r)
  end.

(** [_format_assignment_line]; a status that is [null] has no [replace]
    and raises. *)
Definition _format_assignment_line (record : Rec.t) : py_result string :=
  match get_default (Rec.status record) "unknown" with
  | None => Raise AttributeError
  | Some status =>
      let status := replace_underscores status in
      let course := get_default (Rec.course_name record) "Unnamed Course" in
      let name :=
        get_default (Rec.assignment_name record) "Unnamed Assignment" in
      let percent := _format_percent record in
      let url := get (Rec.url record) in
      let line :=
        ("**" ++ fmt course ++ "** — " ++ fmt name
           ++ " (" ++ status ++ ", " ++ percent ++ ")")%string in
      match url with
      | Some u => if str_truthy u then Ok (line ++ " <" ++ u ++ ">")%string
                  else Ok line
      | None => Ok line
      end
  end.

(** The state of the loop of [_chunk_lines]. *)
Record chunker : Type := mk_chunker {
  chunks : list string;
  current : list string;
  current_len : Z
}.

(** One turn of the loop. *)
Definition chunk_step (max_len : Z) (st : chunker) (line : string)
  : chunker :=
  let line_len := len line + 1 in
  let st' :=
    if nonempty (current st) && (current_len st + line_len >? max_len)
    then mk_chunker (chunks st ++ [join newline (current st)]) [] 0
    else st in
  mk_chunker (chunks st') (current st' ++ [line]) (current_len st' + line_len).

Definition _chunk_lines (lines : list string) (max_len : Z) : list string :=
  let st := fold_left (chunk_step max_len) lines (mk_chunker [] [] 0) in
  if nonempty (current st) then chunks st ++ [join newline (current st)]
  else chunks st.

(** The default of [max_len]. *)
Definition default_max_len : Z := 1900.

(** What [send_discord_notifications] did: what it printed, the posts it
    made (url and content, in order; when it ended in an error the last
    one is the post that failed), and how it ended. *)
Record sent : Type := mk_sent {
  printed : list string;
  posted : list (string * string);
  outcome : py_result unit
}.

Definition all_clear : string := "✅ No missing or below 50% assignments found.".

Definition not_configured : string :=
  "Discord webhook not configured; set DISCORD_WEBHOOK_URL to enable notifications.".

(** [a or b] on optional strings: the first that is neither [None] nor
    empty, else the last. *)
Definition or_else (a b : option string) : option string :=
  match a with
  | Some s => if str_truthy s then a else b
  | None => b
  end.

(** Lines 244-248: the payloads, each the value of its [content] key. *)
Definition payloads_of (records : list Rec.t) : py_result (list string) :=
  match records with
  | [] => Ok [all_clear]
  | _ =>
      match map_result _format_assignment_line records with
      | Raise e => Raise e
      | Ok lines => Ok (_chunk_lines lines default_max_len)
      end
  end.

Section Notify.

(** [os.getenv("DISCORD_WEBHOOK_URL")] at the time of the call, and
    the module constant read from it at import. *)
Variable env_webhook_url : option string.
Variable DEFAULT_DISCORD_WEBHOOK_URL : option string.
(** Whether the post of a payload to a url goes through. *)
Variable post_ok : string -> string -> bool.

(** Lines 250-255: the posts, stopping at the first that fails. *)
Fixpoint post_all (url : string) (payloads : list string)
  : list (string * string) * py_result unit :=
  match payloads with
  | [] => ([], Ok tt)
  | p :: rest =>
      if post_ok url p then
        let '(done, r) := post_all url rest in ((url, p) :: done, r)
      else ([(url, p)], Raise RuntimeError)
  end.

Definition send_discord_notifications (records : list Rec.t)
    (webhook_url : option string) : sent :=
  let webhook_url :=
    or_else (or_else webhook_url env_webhook_url)
      DEFAULT_DISCORD_WEBHOOK_URL in
  match webhook_url with
  | Some url =>
      if str_truthy url then
        match payloads_of records with
        | Raise e => mk_sent [] [] (Raise e)
        | Ok payloads =>
            let '(done, r) := post_all url payloads in mk_sent [] done r
        end
      else mk_sent [not_configured] [] (Ok tt)
  | None => mk_sent [not_configured] [] (Ok tt)
  end.

End Notify.

(** ** The simpler script, [check_assignments.py] *)
Module CheckAssignments.

(** [(score / points * 100) if score is not None else 0]; a [points]
    that is [None] cannot divide. *)
Definition percent (score points : option pynum) : py_result pynum :=
  match score with
  | None => Ok (PyInt 0)
  | Some score =>
      match points with
      | None => Raise TypeError
      | Some points =>
          match percent_of score points with
          | Ok p => Ok (PyFloat p)
          | Raise e => Raise e
          end
      end
  end.

(** [percent < 50] *)
Definition below_50 (percent : pynum) : bool :=
  match percent with
  | PyInt n => n <? 50
  | PyFloat f => float_lt f (lit 50)
  end.

(** [f"{percent:.1f}"] *)
Definition format_percent (percent : pynum) : py_result string :=
  match to_float percent with
  | Ok f => Ok (format_fixed 1 f)
  | Raise e => Raise e
  end.

(** Lines 26-36 of [find_bad_assignments]: the percentage to report
    when the assignment is to be appended to [bad], [None] when the
    loop moves on without it. *)
Definition assess (a : Assignment.t) : py_result (option pynum) :=
  match get (Assignment.submission a) with
  | None => Ok None
  | Some sub =>
      if negb (Submission.truthy sub) then Ok None
      else
        let missing := get_default (Submission.missing sub) false in
        let score := get (Submission.score sub) in
        let points := get_default (Assignment.points_possible a) (PyInt 100) in
        match percent score points with
        | Raise e => Raise e
        | Ok percent =>
            if truth missing || below_50 percent then Ok (Some percent)
            else Ok None
        end
  end.

(** Whether the script reports the assignment. *)
Definition flagged (a : Assignment.t) : py_result bool :=
  match assess a with
  | Ok (Some _) => Ok true
  | Ok None => Ok false
  | Raise e => Raise e
  end.

(** Line 37: the line appended for a reported assignment. *)
Definition bad_line (name : option string) (a : Assignment.t)
    (percent : pynum) : py_result string :=
  match getitem (Assignment.name a) with
  | Raise e => Raise e
  | Ok a_name =>
      match format_percent percent with
      | Raise e => Raise e
      | Ok p =>
          Ok ("**" ++ fmt name ++ "** – " ++ fmt a_name
                ++ " (" ++ p ++ "%)")%string
      end
  end.

(** The inner loop, with [bad] as it stands. *)
Fixpoint scan (name : option string) (assignments : list Assignment.t)
    (bad : list string) : py_result (list string) :=
  match assignments with
  | [] => Ok bad
  | a :: rest =>
      match assess a with
      | Raise e => Raise e
      | Ok None => scan name rest bad
      | Ok (Some percent) =>
          match bad_line name a percent with
          | Raise e => Raise e
          | Ok line => scan name rest (bad ++ [line])
          end
      end
  end.

Section Script.

Context {world : Type}.
(** [requests.get(url, headers=headers).json()] for the courses and
    for the assignments of a course; nothing is caught. *)
Variable get_courses : M world (list Course.t).
Variable get_assignments : option Z -> M world (list Assignment.t).

Fixpoint find_bad_loop (courses : list Course.t) (bad : list string)
  : M world (list string) :=
  match courses with
  | [] => ret bad
  | course :: rest =>
      let* name := lift (getitem (Course.name course)) in
      let* course_id := lift (getitem (Course.id course)) in
      let* assignments := get_assignments course_id in
      let* bad' := lift (scan name assignments bad) in
      find_bad_loop rest bad'
  end.

Definition find_bad_assignments : M world (list string) :=
  let* courses := get_courses in
  find_bad_loop courses [].

End Script.

End CheckAssignments.

(** ** Pagination: [request_json] and [get_all_pages] *)

(** The decoded body of a response: a JSON list, or one object. *)
Inductive body (A : Type) : Type :=
| Items (items : list A)
| Single (item : A).
Arguments Items {A} items.
Arguments Single {A} item.

(** What [get_all_pages] reads of a response: the body, and
    [r.links.get("next", {}).get("url")]. *)
Record response (A : Type) : Type := mk_response {
  data : body A;
  next_url : option string
}.
Arguments mk_response {A} data next_url.
Arguments data {A} r.
Arguments next_url {A} r.

(** [data if isinstance(data, list) else [data]] *)
Definition items_of {A} (b : body A) : list A :=
  match b with
  | Items items => items
  | Single item => [item]
  end.

Section Pagination.

Context {world A : Type}.

(** [requests.get] with [raise_for_status] and [r.json()]: the response
    of a url, [None] when any of the three raises. *)
Variable http_get : string -> world -> option (response A) * world.

(** [request_json]: every exception becomes a [RuntimeError]. *)
Definition request_json (url : string) : M world (response A) :=
  request (http_get url).

(** The loop of [get_all_pages], with [url] and [out] as they stand.
    The loop has no bound of its own: [fuel] counts the requests it may
    still make, and [None] is a run that needs more. *)
Fixpoint get_all_pages_loop (fuel : nat) (url : option string)
    (out : list A) (w : world) : option (py_result (list A) * world) :=
  match url with
  | None => Some (Ok out, w)
  | Some u =>
      if str_truthy u then
        match fuel with
        | O => None
        | S fuel' =>
            match request_json u w with
            | (Raise e, w') => Some (Raise e, w')
            | (Ok r, w') =>
                get_all_pages_loop fuel' (next_url r)
                  (out ++ items_of (data r)) w'
            end
        end
      else Some (Ok out, w)
  end.

Definition get_all_pages (fuel : nat) (url : string) (w : world)
  : option (py_result (list A) * world) :=
  get_all_pages_loop fuel (Some url) [] w.

End Pagination.

(** ** The command line: [main] *)

(** A line [main] prints: the error of a failed collection, the JSON
    dump of the records, or a plain text. *)
Inductive printout : Type :=
| PrintError (e : exn)
| PrintJson (data : list Rec.t)
| PrintText (s : string).

(** What a run of [main] did: what it printed, the posts it made, and
    the exit code it returned or the exception it left with. *)
Record run : Type := mk_run {
  stdout : list printout;
  posts : list (string * string);
  exit : py_result Z
}.

Section Main.

Variable isoparse : string -> py_result datetime.
Context {world : Type}.
Variable http_courses : world -> option (list Course.t) * world.
Variable http_grading_periods :
  option Z -> world -> option periods_payload * world.
Variable http_assignments :
  option Z -> world -> option (list Assignment.t) * world.
Variable env_webhook_url : option string.
Variable DEFAULT_DISCORD_WEBHOOK_URL : option string.
Variable post_ok : string -> string -> bool.


End Main.

(** ** The sender of [check_assignments.py] *)
Module CheckAssignmentsSender.

Definition all_good : string := "🎉 No missing or failing assignments today!".

Definition to_fix : string := "⚠️ Assignments to fix:".

(** The [msg] of [send_to_discord]. *)
Definition message (lines : list string) : string :=
  match lines with
  | [] => all_good
  | _ => (to_fix ++ newline ++ join newline lines)%string
  end.

End CheckAssignmentsSender.

(** ** What the filter reads of an assignment *)

(** [bool(sub.get("missing"))] *)
Definition is_missing (a : Assignment.t) : bool :=
  truth (get (Submission.missing (submission_or_empty a))).

(** [bool(sub.get("late"))] *)
Definition is_late (a : Assignment.t) : bool :=
  truth (get (Submission.late (submission_or_empty a))).

(** [sub.get("score")] *)
Definition score_of (a : Assignment.t) : option pynum :=
  get (Submission.score (submission_or_empty a)).

(** [a.get("points_possible")] *)
Definition points_of (a : Assignment.t) : option pynum :=
  get (Assignment.points_possible a).

(** The assignment with the [late] key of its submission set to [l];
    an assignment without a submission object has no such key. *)
Definition set_late (l : field bool) (a : Assignment.t) : Assignment.t :=
  match Assignment.submission a with
  | Val s =>
      Assignment.mk (Assignment.id a) (Assignment.name a)
        (Assignment.points_possible a) (Assignment.due_at a)
        (Assignment.grading_period_id a)
        (Val (Submission.mk (Submission.missing s) l (Submission.score s)
                (Submission.other_keys s)))
        (Assignment.html_url a)
  | _ => a
  end.

(** The record with its [status] entry replaced. *)
Definition set_status (st : field string) (r : Rec.t) : Rec.t :=
  Rec.mk (Rec.course_id r) (Rec.course_name r) (Rec.assignment_id r)
    (Rec.assignment_name r) st (Rec.score r) (Rec.points_possible r)
    (Rec.percent r) (Rec.due_at r) (Rec.url r).

(** ** The fixtures of [TestFiltering], and a few more *)
Module Fixtures.

Definition period_ids : gset (option Z) := {[ Some 1 ]}.

(** [2025-01-01T00:00:00Z] and [2025-03-31T23:59:59Z]. *)
Definition window_start : datetime := Aware 1735689600000000.
Definition window_end : datetime := Aware 1743465599000000.

Definition ranges : list (datetime * datetime) :=
  [(window_start, window_end)].

Definition submission (missing : field bool) (score : field pynum)
  : Submission.t :=
  Submission.mk missing Absent score [].

(** An assignment with the keys the filter reads. *)
Definition assignment (grading_period_id : field Z) (due_at : field string)
    (sub : field Submission.t) (points_possible : field pynum)
  : Assignment.t :=
  Assignment.mk Absent Absent points_possible due_at grading_period_id sub
    Absent.

(** The assignment under a name. *)
Definition named (name : string) (a : Assignment.t) : Assignment.t :=
  Assignment.mk (Assignment.id a) (Val name) (Assignment.points_possible a)
    (Assignment.due_at a) (Assignment.grading_period_id a)
    (Assignment.submission a) (Assignment.html_url a).

(** In period 1, not missing, [score] out of [points]. *)
Definition scored (score points : Z) : Assignment.t :=
  assignment (Val 1) Absent
    (Val (submission (Val false) (Val (PyInt score))))
    (Val (PyInt points)).

(** No period, missing, due on the given date. *)
Definition due_missing (due : string) : Assignment.t :=
  assignment Null (Val due) (Val (submission (Val true) Absent))
    (Val (PyInt 10)).

(** A first range of naive datetimes (a grading period whose dates
    carry no offset) before the window of the tests. *)
Definition mixed_ranges : list (datetime * datetime) :=
  [(Naive 1735689600000000, Naive 1743465599000000);
   (window_start, window_end)].

Definition course (id : Z) (name : string) : Course.t :=
  Course.mk (Val id) (Val name).

(** In period 1, flagged missing, with a score of 401 digits against
    2.5 points. *)
Definition huge_score : Assignment.t :=
  assignment (Val 1) Absent
    (Val (submission (Val true) (Val (PyInt (10 ^ 400)))))
    (Val (PyFloat (S754_finite false 5 (-1)))).

(** A world that counts the requests made to it.  Three courses; the
    grading periods of course 2 cannot be fetched. *)
Module Demo.

Definition world : Type := nat.

Definition courses : list Course.t :=
  [course 1 "Biology"; course 2 "History"; course 3 "Maths"].

Definition http_courses (w : world) : option (list Course.t) * world :=
  (Some courses, S w).

Definition quarter_3 : GradingPeriod.t :=
  GradingPeriod.mk (Val 1) (Val "Quarter 3")
    (Val "2025-01-01T00:00:00Z") (Val "2025-03-31T23:59:59Z").

Definition http_grading_periods (course_id : option Z) (w : world)
  : option periods_payload * world :=
  (match course_id with
   | Some 2 => None
   | _ => Some (Wrapped [quarter_3])
   end, S w).

Definition http_assignments (course_id : option Z) (w : world)
  : option (list Assignment.t) * world :=
  (Some [scored 4 10; scored 9 10; due_missing "2025-02-15T12:00:00Z"],
   S w).

End Demo.

(** A course with two matching grading periods, the first with dates
    that carry no offset. *)
Module Offsets.

Definition quarter_3_local : GradingPeriod.t :=
  GradingPeriod.mk (Val 7) (Val "Q3 (local time)")
    (Val "2025-01-01T00:00:00") (Val "2025-03-31T23:59:59").

Definition http_grading_periods (course_id : option Z) (w : Demo.world)
  : option periods_payload * Demo.world :=
  (Some (Bare [quarter_3_local; Demo.quarter_3]), S w).

End Offsets.

End Fixtures.

(** ** More fixtures *)
Module MoreFixtures.

(** A course whose grading periods are the two semesters. *)
Definition semester (id : Z) (title : string) : GradingPeriod.t :=
  GradingPeriod.mk (Val id) (Val title) (Val "2024-09-01T00:00:00Z")
    (Val "2025-01-31T23:59:59Z").

Definition http_semesters (course_id : option Z) (w : nat)
  : option periods_payload * nat :=
  (Some (Bare [semester 11 "Semester 1"; semester 12 "Semester 2"]), S w).



End MoreFixtures.

(** Three pages of numbers: a list, one object, a list; the third page
    has an empty "next" link.  The page [loop] links to itself, the
    page [gone] cannot be fetched and [half] links to it. *)
Module Pages.

Definition http_get (url : string) (w : nat) : option (response Z) * nat :=
  (if String.eqb url "page1" then
     Some (mk_response (Items [1; 2]) (Some "page2"))
   else if String.eqb url "page2" then
     Some (mk_response (Single 3) (Some "page3"))
   else if String.eqb url "page3" then
     Some (mk_response (Items [4; 5]) (Some ""))
   else if String.eqb url "loop" then
     Some (mk_response (Items [0]) (Some "loop"))
   else if String.eqb url "half" then
     Some (mk_response (Items [9]) (Some "gone"))
   else None,
   S w).

End Pages.

(** A world for [check_assignments.py]: one course, whose second
    assignment has a score and zero points. *)
Module Script.

Definition zero_points : Assignment.t :=
  Fixtures.named "Bonus"
    (Fixtures.assignment (Val 1) Absent
       (Val (Fixtures.submission (Val false) (Val (PyInt 3))))
       (Val (PyInt 0))).

Definition get_courses (w : nat) : py_result (list Course.t) * nat :=
  (Ok [Fixtures.course 1 "Biology"], S w).

Definition get_assignments (course_id : option Z) (w : nat)
  : py_result (list Assignment.t) * nat :=
  (Ok [Fixtures.named "Essay" (Fixtures.scored 4 10); zero_points], S w).

End Script.

(** ** The vocabulary of the properties *)

(** [d] lies in the range: [start <= d <= end], both comparisons made. *)
Definition within (d : datetime) (r : datetime * datetime) : Prop :=
  dt_le (fst r) d = Ok true /\ dt_le d (snd r) = Ok true.

(** The comparison of [d] against the range does not raise. *)
Definition comparable (d : datetime) (r : datetime * datetime) : Prop :=
  exists b, between (fst r) d (snd r) = Ok b.

(** The id of the assignment is one of the period ids. *)
Definition in_period (a : Assignment.t) (period_ids : gset (option Z))
  : Prop :=
  exists g, get (Assignment.grading_period_id a) = Some g
            /\ Some g ∈ period_ids.

(** The due date is a non-empty string that parses to [d]. *)
Definition due_on (isoparse : string -> py_result datetime)
    (a : Assignment.t) (d : datetime) : Prop :=
  exists due, get (Assignment.due_at a) = Some due /\ due <> ""
              /\ isoparse due = Ok d.

(** What the chunker counts for a group of lines: every line with its
    newline. *)
Fixpoint weight (g : list string) : Z :=
  match g with
  | [] => 0
  | line :: rest => len line + 1 + weight rest
  end.

(** A chunk within the limit, or a single line that is over it alone. *)
Definition fits (max_len : Z) (g : list string) : Prop :=
  g <> []
  /\ (weight g <= max_len
      \/ exists line, g = [line] /\ max_len < len line + 1).

(** What holds of the loop after the lines [seen]. *)
Definition chunk_inv (max_len : Z) (seen : list string) (st : chunker)
  : Prop :=
  exists groups,
    chunks st = map (join newline) groups
    /\ (concat groups ++ current st)%list = seen
    /\ Forall (fits max_len) groups
    /\ current_len st = weight (current st)
    /\ (current st = [] \/ fits max_len (current st)).

(** The url [send_discord_notifications] settles on. *)
Definition effective_url (env_webhook_url DEFAULT_DISCORD_WEBHOOK_URL
    webhook_url : option string) : option string :=
  or_else (or_else webhook_url env_webhook_url) DEFAULT_DISCORD_WEBHOOK_URL.

(** The filter as the collector calls it, read as a boolean. *)
Definition accepted (isoparse : string -> py_result datetime)
    (period_ids : gset (option Z)) (ranges : list (datetime * datetime))
    (a : Assignment.t) : bool :=
  match
    should_include_assignment isoparse a period_ids ranges default_threshold
  with
  | Ok b => b
  | Raise _ => false
  end.


(** [k] occurs in [t]: the meaning of [k in t] on strings. *)
Definition occurs (k t : string) : Prop :=
  exists pre post, t = (pre ++ k ++ post)%string.

(** What the first line of a group counts for. *)
Definition first_weight (g : list string) : Z :=
  match g with
  | [] => 0
  | line :: _ => len line + 1
  end.

(** No group could have taken the first line of the group after it. *)
Fixpoint tight (max_len : Z) (groups : list (list string)) : Prop :=
  match groups with
  | [] => True
  | g :: rest =>
      match rest with
      | [] => True
      | h :: _ => max_len < weight g + first_weight h
      end
      /\ tight max_len rest
  end.

(** The group the loop of [_chunk_lines] is filling, if it has a line. *)
Definition open_group (st : chunker) : list (list string) :=
  match current st with
  | [] => []
  | _ => [current st]
  end.

(** What holds of the loop of [_chunk_lines] after the lines [seen],
    for the greedy packing. *)
Definition greedy_inv (max_len : Z) (seen : list string) (st : chunker)
  : Prop :=
  exists groups,
    chunks st = map (join newline) groups
    /\ concat (groups ++ open_group st) = seen
    /\ Forall (fun g => g <> []) (groups ++ open_group st)
    /\ tight max_len (groups ++ open_group st)
    /\ current_len st = weight (current st)
    /\ (current st = [] -> groups = []).

(** The url is the first non-empty string among the argument, the
    environment variable and the module default. *)
Definition chosen_url (webhook_url env_webhook_url
    DEFAULT_DISCORD_WEBHOOK_URL : option string) (url : string) : Prop :=
  let unset (v : option string) := v = None \/ v = Some "" in
  url <> ""
  /\ (webhook_url = Some url
      \/ (unset webhook_url /\ env_webhook_url = Some url)
      \/ (unset webhook_url /\ unset env_webhook_url
          /\ DEFAULT_DISCORD_WEBHOOK_URL = Some url)).

(** The label of the status of a record as its line shows it. *)
Definition shown_label (a : Assignment.t) : string :=
  if is_missing a then "missing"
  else if is_late a then "late" else "low score".

(** The status of the record is [null]. *)
Definition null_status (r : Rec.t) : Prop := Rec.status r = Null.

Section PageChains.

Context {world A : Type}.
Variable http_get : string -> world -> option (response A) * world.

(** Following the "next" links from [url] in the world [w] meets the
    bodies [pages], every request answered, and ends (no link, or an
    empty one) in the world [w']. *)
Inductive chain : option string -> world -> list (body A) -> world -> Prop :=
| chain_no_link (w : world) : chain None w [] w
| chain_empty_link (w : world) : chain (Some "") w [] w
| chain_page (u : string) (w w1 w2 : world) (r : response A)
    (pages : list (body A)) :
    u <> "" -> http_get u w = (Some r, w1) ->
    chain (next_url r) w1 pages w2 ->
    chain (Some u) w (data r :: pages) w2.

(** Following the links from [url] meets a request that fails, the
    [n]-th, and leaves the world [w']. *)
Inductive broken : option string -> world -> nat -> world -> Prop :=
| broken_here (u : string) (w w' : world) :
    u <> "" -> http_get u w = (None, w') -> broken (Some u) w 1 w'
| broken_later (u : string) (w w1 w' : world) (r : response A) (n : nat) :
    u <> "" -> http_get u w = (Some r, w1) ->
    broken (next_url r) w1 n w' ->
    broken (Some u) w (S n) w'.

End PageChains.

(** [line] is the line [find_bad_assignments] appends for [a] in the
    course called [name]. *)
Definition reported_as (name : option string) (a : Assignment.t)
    (line : string) : Prop :=
  exists percent,
    CheckAssignments.assess a = Ok (Some percent)
    /\ CheckAssignments.bad_line name a percent = Ok line.

(** [find_bad_assignments] moves on without [a]. *)
Definition passed_over (a : Assignment.t) : Prop :=
  CheckAssignments.assess a = Ok None.

(** The lines reported for the assignments, in their order. *)
Inductive report_of (name : option string)
  : list Assignment.t -> list string -> Prop :=
| report_nil : report_of name [] []
| report_skip (a : Assignment.t) (rest : list Assignment.t)
    (lines : list string) :
    passed_over a -> report_of name rest lines ->
    report_of name (a :: rest) lines
| report_line (a : Assignment.t) (rest : list Assignment.t) (line : string)
    (lines : list string) :
    reported_as name a line -> report_of name rest lines ->
    report_of name (a :: rest) (line :: lines).

(** The assignment has a score but nothing to divide it by:
    [points_possible] is [null] or zero. *)
Definition undividable (a : Assignment.t) : Prop :=
  exists score,
    score_of a = Some score
    /\ (Assignment.points_possible a = Null
        \/ exists points, points_of a = Some points /\ truthy points = false).

(** [title or ""] *)
Definition title_text (title : option string) : string :=
  match title with
  | Some s => s
  | None => ""
  end.




(** * Properties *)

(** ** Float comparisons *)




Lemma float_le_cases (x y : float) :
  float_le x y = true <-> float_eq x y = true \/ float_lt x y = true.
Proof.
  unfold float_eq, float_lt, float_le, SFeqb, SFltb, SFleb.
  destruct (SFcompare x y) as [[]|]; intuition congruence.
Qed.

(** ** Rounding keeps a non-zero integer away from zero *)

Lemma digits2_pos_lower (p : positive) :
  2 ^ (Z.pos (digits2_pos p) - 1) <= Z.pos p.
Proof.
  induction p as [p IH|p IH|]; simpl digits2_pos;
    rewrite ?Pos2Z.inj_succ;
    try (replace (Z.succ (Z.pos (digits2_pos p)) - 1)
           with (Z.succ (Z.pos (digits2_pos p) - 1)) by lia;
         rewrite Z.pow_succ_r by lia);
    simpl; lia.
Qed.

Lemma shr_1_half (mrs : shr_record) :
  0 <= shr_m mrs -> shr_m (shr_1 mrs) = shr_m mrs / 2.
Proof.
  destruct mrs as [m r s]. cbn [shr_m]. intros H.
  destruct m as [|[p|p|]|p]; cbn [shr_1 shr_m]; try lia.
  - reflexivity.
  - apply Z.div_unique with 1; lia.
  - apply Z.div_unique with 0; lia.
  - reflexivity.
Qed.

Lemma pow2_xO (p : positive) : 2 ^ Z.pos p~0 = 2 ^ Z.pos p * 2 ^ Z.pos p.
Proof. rewrite <- Z.pow_add_r by lia. f_equal. lia. Qed.

Lemma pow2_xI (p : positive) :
  2 ^ Z.pos p~1 = 2 * (2 ^ Z.pos p * 2 ^ Z.pos p).
Proof.
  rewrite <- Z.pow_add_r, <- Z.pow_succ_r by lia. f_equal. lia.
Qed.

Lemma shr_iter (p : positive) (mrs : shr_record) :
  0 <= shr_m mrs ->
  shr_m (SpecFloat.iter_pos shr_1 p mrs) = shr_m mrs / 2 ^ Z.pos p.
Proof.
  revert mrs.
  induction p as [p IH|p IH|]; intros mrs H; simpl SpecFloat.iter_pos.
  - assert (H1 : 0 <= shr_m (shr_1 mrs))
      by (rewrite shr_1_half by exact H; apply Z.div_pos; lia).
    assert (H2 : 0 <= shr_m (SpecFloat.iter_pos shr_1 p (shr_1 mrs)))
      by (rewrite IH by exact H1; apply Z.div_pos; lia).
    rewrite IH by exact H2. rewrite IH by exact H1.
    rewrite shr_1_half by exact H.
    rewrite !Z.div_div by lia. now rewrite pow2_xI.
  - assert (H1 : 0 <= shr_m (SpecFloat.iter_pos shr_1 p mrs))
      by (rewrite IH by exact H; apply Z.div_pos; lia).
    rewrite IH by exact H1. rewrite IH by exact H.
    rewrite Z.div_div by lia. now rewrite pow2_xO.
  - now rewrite shr_1_half.
Qed.

Lemma shr_record_of_loc_m (m : Z) (l : location) :
  shr_m (shr_record_of_loc m l) = m.
Proof. destruct l as [|[]]; reflexivity. Qed.

Lemma shr_fexp_lower (m e : Z) (l : location) :
  1 <= m -> emin prec emax <= e ->
  1 <= shr_m (fst (shr_fexp prec emax m e l))
  /\ emin prec emax <= snd (shr_fexp prec emax m e l).
Proof.
  intros Hm He. unfold shr_fexp, shr.
  destruct (fexp prec emax (Zdigits2 m + e) - e) as [|n|n] eqn:N; simpl;
    rewrite ?shr_record_of_loc_m; try lia.
  split; [|lia].
  rewrite shr_iter by (rewrite shr_record_of_loc_m; lia).
  rewrite shr_record_of_loc_m.
  destruct m as [|p|p]; try lia. simpl Zdigits2 in N.
  pose proof (digits2_pos_lower p) as L.
  assert (D : Z.pos n <= Z.pos (digits2_pos p) - 1)
    by (unfold fexp, emin, prec, emax in *; lia).
  assert (2 ^ Z.pos n <= 2 ^ (Z.pos (digits2_pos p) - 1))
    by (apply Z.pow_le_mono_r; lia).
  apply Z.div_le_lower_bound; lia.
Qed.

Lemma round_nearest_even_lower (m : Z) (l : location) :
  m <= round_nearest_even m l.
Proof. destruct l as [|[]]; simpl; try lia. destruct (Z.even m); lia. Qed.

Lemma binary_round_aux_nonzero (sx : bool) (mx ex : Z) (lx : location)
    (s : bool) :
  1 <= mx -> emin prec emax <= ex ->
  binary_round_aux prec emax sx mx ex lx <> S754_zero s.
Proof.
  intros Hm He. unfold binary_round_aux.
  pose proof (shr_fexp_lower mx ex lx Hm He) as [H1 H2].
  destruct (shr_fexp prec emax mx ex lx) as [mrs' e']. simpl in H1, H2.
  pose proof (round_nearest_even_lower (shr_m mrs') (loc_of_shr_record mrs'))
    as R.
  assert (Hr : 1 <= round_nearest_even (shr_m mrs') (loc_of_shr_record mrs'))
    by lia.
  pose proof (shr_fexp_lower _ e' loc_Exact Hr H2) as [H3 _].
  destruct (shr_fexp prec emax _ e' loc_Exact) as [mrs'' e'']. simpl in H3.
  destruct (shr_m mrs'') as [|m|m]; try lia.
  destruct (e'' <=? emax - prec); discriminate.
Qed.

Lemma float_of_int_nonzero (n : Z) (f : float) :
  n <> 0 -> float_of_int n = Ok f -> is_zero f = false.
Proof.
  intros Hn. unfold float_of_int.
  assert (Z : forall s, binary_normalize prec emax n 0 false <> S754_zero s).
  { intros s. unfold binary_normalize, binary_round.
    destruct n as [|p|p]; [congruence| |];
      (destruct (shl_align p 0 (fexp prec emax (Z.pos (digits2_pos p) + 0)))
         as [mz ez] eqn:A;
       apply binary_round_aux_nonzero; [lia|];
       unfold shl_align in A;
       destruct (fexp prec emax (Z.pos (digits2_pos p) + 0) - 0) eqn:D;
       injection A as <- <-; unfold fexp, emin, prec, emax in *; lia). }
  destruct (binary_normalize prec emax n 0 false) as [s|s| |s m e];
    try discriminate; intros E; injection E as <-; try reflexivity.
  now destruct (Z s).
Qed.

(** With a divisor that is true the division does not divide by zero:
    the one exception left is the overflow of an [int]. *)
Lemma truediv_raises (x y : pynum) (e : exn) :
  truthy y = true -> truediv x y = Raise e -> e = OverflowError.
Proof.
  intros T. unfold truediv.
  assert (I : forall a b, b <> 0 -> int_true_divide a b = Raise e ->
              e = OverflowError).
  { intros a b Hb. unfold int_true_divide.
    destruct (b =? 0) eqn:B; [apply Z.eqb_eq in B; congruence|].
    destruct (a =? 0); [discriminate|].
    destruct (SFdiv_core_binary prec emax (Z.abs a) 0 (Z.abs b) 0)
      as [[q d] l].
    destruct (binary_round_aux prec emax _ q d l); congruence. }
  assert (F : forall n, float_of_int n = Raise e -> e = OverflowError).
  { intros n. unfold float_of_int.
    destruct (binary_normalize prec emax n 0 false); congruence. }
  assert (Zy : forall fy, to_float y = Ok fy -> is_zero fy = false).
  { intros fy. destruct y as [b|g]; simpl in *.
    - apply float_of_int_nonzero.
      destruct (b =? 0) eqn:B; [discriminate|]. now apply Z.eqb_neq.
    - intros E. injection E as <-. now destruct (is_zero g). }
  destruct x as [a|f], y as [b|g].
  - apply I. simpl in T. destruct (b =? 0) eqn:B; [discriminate|].
    now apply Z.eqb_neq.
  - cbn [to_float]. destruct (float_of_int a) as [fx|x] eqn:A.
    + rewrite (Zy g eq_refl). discriminate.
    + intros E. injection E as <-. eauto.
  - cbn [to_float]. destruct (float_of_int b) as [fy|x] eqn:B.
    + rewrite (Zy fy); [discriminate|]. simpl. exact B.
    + intros E. injection E as <-. eauto.
  - cbn [to_float]. rewrite (Zy g eq_refl). discriminate.
Qed.

Lemma percent_of_raises (score points : pynum) (e : exn) :
  truthy points = true -> percent_of score points = Raise e ->
  e = OverflowError.
Proof.
  intros T. unfold percent_of.
  destruct (truediv score points) as [q|x] eqn:D; [discriminate|].
  intros E. injection E as <-. eapply truediv_raises; eauto.
Qed.

(** Two floats always divide: no conversion is made that could
    overflow. *)
Lemma percent_of_floats (f g : float) :
  truthy (PyFloat g) = true ->
  percent_of (PyFloat f) (PyFloat g) = Ok (mul100 (SFdiv prec emax f g)).
Proof.
  unfold percent_of, truediv. simpl. intros T.
  destruct (is_zero g); [discriminate|reflexivity].
Qed.

(** ** The window check *)

Lemma between_within (d : datetime) (r : datetime * datetime) :
  between (fst r) d (snd r) = Ok true <-> within d r.
Proof.
  unfold between, within.
  destruct (dt_le (fst r) d) as [[]|x]; intuition congruence.
Qed.

Lemma any_between_true (d : datetime) (ranges : list (datetime * datetime)) :
  any_between d ranges = Ok true <->
  exists pre r post,
    ranges = (pre ++ r :: post)%list /\ within d r /\ Forall (comparable d) pre.
Proof.
  induction ranges as [|[s e] rest IH]; simpl.
  - split; [discriminate|].
    intros (pre & r & post & E & _). destruct pre; discriminate.
  - destruct (between s d e) as [[]|x] eqn:B.
    + split; [intros _|reflexivity].
      exists [], (s, e), rest. split; [reflexivity|]. split.
      * apply between_within. exact B.
      * constructor.
    + rewrite IH. split.
      * intros (pre & r & post & E & W & F).
        exists ((s, e) :: pre), r, post. subst rest. split; [reflexivity|].
        split; [exact W|]. constructor; [|exact F]. exists false. exact B.
      * intros (pre & r & post & E & W & F). destruct pre as [|p pre].
        -- simpl in E. injection E as <- <-.
           apply between_within in W. simpl in W. congruence.
        -- simpl in E. injection E as <- ->.
           exists pre, r, post. split; [reflexivity|]. split; [exact W|].
           now inversion F.
    + split; [discriminate|].
      intros (pre & r & post & E & W & F). destruct pre as [|p pre].
      * simpl in E. injection E as <- <-.
        apply between_within in W. simpl in W. congruence.
      * simpl in E. injection E as <- ->. inversion F as [|? ? [b Hb] ?].
        simpl in Hb. congruence.
Qed.

Lemma any_between_within (d : datetime) (ranges : list (datetime * datetime)) :
  any_between d ranges = Ok true -> exists r, In r ranges /\ within d r.
Proof.
  intros H. apply any_between_true in H as (pre & r & post & -> & W & _).
  exists r. split; [|exact W]. apply in_or_app. right. now left.
Qed.

Section FilterProperties.

Variable isoparse : string -> py_result datetime.

Implicit Types (a : Assignment.t) (period_ids : gset (option Z)).
Implicit Types (ranges : list (datetime * datetime)) (thr : float).

Lemma in_period_decide a period_ids :
  match get (Assignment.grading_period_id a) with
  | Some g => bool_decide (Some g ∈ period_ids)
  | None => false
  end = true <-> in_period a period_ids.
Proof.
  unfold in_period. destruct (get (Assignment.grading_period_id a)) as [g|].
  - rewrite bool_decide_eq_true. split.
    + intros H. exists g. auto.
    + intros (g' & E & H). injection E as ->. exact H.
  - split; [discriminate|]. intros (g & E & _). discriminate.
Qed.

Lemma str_truthy_nonempty (s : string) : str_truthy s = true <-> s <> "".
Proof. destruct s; simpl; split; congruence. Qed.

Lemma belongs_returns a period_ids ranges :
  exists b, belongs isoparse a period_ids ranges = Ok b.
Proof.
  unfold belongs.
  destruct (negb _ && nonempty ranges); [|eauto].
  destruct (get (Assignment.due_at a)) as [due|]; [|eauto].
  destruct (str_truthy due); [|eauto].
  destruct (isoparse due) as [d|x]; simpl; [|eauto].
  destruct (any_between d ranges); simpl; eauto.
Qed.

Lemma belongs_true a period_ids ranges :
  belongs isoparse a period_ids ranges = Ok true <->
  in_period a period_ids \/
  exists d pre r post,
    due_on isoparse a d /\ ranges = (pre ++ r :: post)%list /\ within d r
    /\ Forall (comparable d) pre.
Proof.
  unfold belongs. rewrite <- in_period_decide.
  destruct (match get (Assignment.grading_period_id a) with
            | Some g => bool_decide (Some g ∈ period_ids)
            | None => false
            end) eqn:G; simpl.
  { split; [auto|reflexivity]. }
  assert (R : forall P : Prop, (false = true \/ P) <-> P)
    by (intros P; split; [intros [?|?]; [discriminate|assumption]|auto]).
  rewrite R. unfold due_on.
  destruct (nonempty ranges) eqn:N.
  - destruct (get (Assignment.due_at a)) as [due|].
    + destruct (str_truthy due) eqn:T.
      * destruct (isoparse due) as [d|x] eqn:P; simpl.
        -- destruct (any_between d ranges) as [b|x] eqn:A; simpl.
           ++ split.
              ** intros E. injection E as ->.
                 apply any_between_true in A as (pre & r & post & E & W & F).
                 exists d, pre, r, post. split; [|auto].
                 exists due. split; [reflexivity|].
                 split; [now apply str_truthy_nonempty|exact P].
              ** intros (d' & pre & r & post & (due' & E1 & _ & E2) & E & W & F).
                 injection E1 as <-. rewrite P in E2. injection E2 as <-.
                 rewrite <- A. apply any_between_true.
                 exists pre, r, post. auto.
           ++ split; [discriminate|].
              intros (d' & pre & r & post & (due' & E1 & _ & E2) & E & W & F).
              injection E1 as <-. rewrite P in E2. injection E2 as <-.
              assert (any_between d ranges = Ok true)
                by (apply any_between_true; exists pre, r, post; auto).
              congruence.
        -- split; [discriminate|].
           intros (d' & pre & r & post & (due' & E1 & _ & E2) & _).
           injection E1 as <-. congruence.
      * split; [discriminate|].
        intros (d' & pre & r & post & (due' & E1 & NE & _) & _).
        injection E1 as <-. apply str_truthy_nonempty in NE. congruence.
    + split; [discriminate|].
      intros (d' & pre & r & post & (due' & E1 & _) & _). discriminate.
  - split; [discriminate|].
    intros (d' & pre & r & post & _ & E & _).
    destruct ranges; [destruct pre|]; discriminate.
Qed.

Lemma not_belonging_excluded a period_ids ranges thr :
  belongs isoparse a period_ids ranges = Ok false ->
  should_include_assignment isoparse a period_ids ranges thr = Ok false.
Proof. unfold should_include_assignment. now intros ->. Qed.

End FilterProperties.

Section FilterClaims.

Variable isoparse : string -> py_result datetime.

Implicit Types (a : Assignment.t) (period_ids : gset (option Z)).
Implicit Types (ranges : list (datetime * datetime)) (thr : float).

Lemma should_include_unfold a period_ids ranges thr :
  should_include_assignment isoparse a period_ids ranges thr =
  and_then (belongs isoparse a period_ids ranges) (fun belongs =>
    if negb belongs then Ok false
    else if is_missing a then Ok true
    else
      match score_of a, points_of a with
      | Some score, Some points =>
          if truthy points then
            try_except
              (and_then (percent_of score points) (fun p => Ok (float_le p thr)))
              (fun _ => Ok false)
          else Ok false
      | _, _ => Ok false
      end).
Proof. reflexivity. Qed.

Lemma should_include_returns a period_ids ranges thr :
  exists b, should_include_assignment isoparse a period_ids ranges thr = Ok b.
Proof.
  rewrite should_include_unfold.
  destruct (belongs_returns isoparse a period_ids ranges) as [b ->]. simpl.
  destruct b; simpl; [|eauto].
  destruct (is_missing a); [eauto|].
  destruct (score_of a) as [s|]; [|eauto].
  destruct (points_of a) as [p|]; [|eauto].
  destruct (truthy p); [|eauto].
  destruct (percent_of s p); simpl; eauto.
Qed.

(** C1, amended.  The assignment belongs to the window iff its
    grading period id is one of [period_ids], or its due date is a
    non-empty string that parses to [d] and some range holds [d]
    ([start <= d <= end], both bounds included) while the comparison
    of [d] with every range before that one does not raise; when
    every range can be compared with [d] this is: some range holds
    [d].  An assignment whose id is not in [period_ids] and whose due
    date is in no range is excluded. *)
Theorem window_membership a period_ids ranges :
  (belongs isoparse a period_ids ranges = Ok true <->
     in_period a period_ids \/
     exists d pre r post,
       due_on isoparse a d /\ ranges = (pre ++ r :: post)%list
       /\ within d r /\ Forall (comparable d) pre)
  /\ (forall d,
        due_on isoparse a d -> Forall (comparable d) ranges ->
        (belongs isoparse a period_ids ranges = Ok true <->
           in_period a period_ids \/ exists r, In r ranges /\ within d r))
  /\ (forall thr,
        ~ in_period a period_ids ->
        (forall d r, due_on isoparse a d -> In r ranges -> ~ within d r) ->
        should_include_assignment isoparse a period_ids ranges thr
        = Ok false).
Proof.
  split; [apply belongs_true|]. split.
  - intros d D F. rewrite belongs_true. split; intros [H|H]; auto; right.
    + destruct H as (d' & pre & r & post & D' & -> & W & _).
      assert (d' = d) as ->.
      { destruct D as (s & E1 & _ & E2), D' as (s' & E1' & _ & E2').
        congruence. }
      exists r. split; [|exact W]. apply in_or_app. right. now left.
    + destruct H as (r & Hin & W).
      apply in_split in Hin as (pre & post & ->).
      exists d, pre, r, post. repeat split; try assumption; try apply W.
      apply Forall_app in F. tauto.
  - intros thr NP Out. apply not_belonging_excluded.
    destruct (belongs_returns isoparse a period_ids ranges) as [[] E];
      [|exact E].
    apply belongs_true in E as [H|(d & pre & r & post & D & -> & W & _)].
    + contradiction.
    + exfalso. apply (Out d r D); [|exact W].
      apply in_or_app. right. now left.
Qed.


(** C3.  An assignment in the window whose submission is flagged
    missing is included, whatever its score and its
    [points_possible] are. *)
Theorem missing_included a period_ids ranges thr sub :
  belongs isoparse a period_ids ranges = Ok true ->
  Assignment.submission a = Val sub ->
  Submission.missing sub = Val true ->
  should_include_assignment isoparse a period_ids ranges thr = Ok true.
Proof.
  intros B S Mi. rewrite should_include_unfold, B. simpl.
  unfold is_missing, submission_or_empty. rewrite S. simpl.
  assert (Submission.truthy sub = true) as ->
    by (unfold Submission.truthy; now rewrite Mi).
  now rewrite Mi.
Qed.


Lemma falsy_submission_empty (s : Submission.t) :
  Submission.truthy s = false -> s = Submission.empty.
Proof.
  destruct s as [m l sc o]. unfold Submission.truthy. simpl.
  destruct m, l, sc, o; try discriminate. reflexivity.
Qed.

Lemma submission_or_empty_val a s :
  Assignment.submission a = Val s -> submission_or_empty a = s.
Proof.
  intros E. unfold submission_or_empty. rewrite E. simpl.
  destruct (Submission.truthy s) eqn:T; [reflexivity|].
  symmetry. now apply falsy_submission_empty.
Qed.

Lemma belongs_set_late a period_ids ranges l :
  belongs isoparse (set_late l a) period_ids ranges
  = belongs isoparse a period_ids ranges.
Proof. unfold set_late. now destruct (Assignment.submission a). Qed.

(** C10.  Two assignments that differ only in the [late] key of the
    submission get the same answer from the filter, for every set of
    period ids, ranges and threshold; their records differ at most in
    [status], which is ["late"] only for a submission that is late and
    not missing. *)
Theorem late_flag_irrelevant a period_ids ranges thr l course :
  should_include_assignment isoparse (set_late l a) period_ids ranges thr
  = should_include_assignment isoparse a period_ids ranges thr
  /\ (exists r r',
        _assignment_to_record course a = Ok r
        /\ _assignment_to_record course (set_late l a) = Ok r'
        /\ set_status (Rec.status r) r' = r
        /\ Rec.status r
           = Val (if is_missing a then "missing"
                  else if is_late a then "late" else "low_score")).
Proof.
  assert (V : forall s, Assignment.submission a = Val s ->
              submission_or_empty (set_late l a)
              = Submission.mk (Submission.missing s) l (Submission.score s)
                  (Submission.other_keys s)).
  { intros s E. apply submission_or_empty_val. unfold set_late.
    now rewrite E. }
  assert (Mi : is_missing (set_late l a) = is_missing a).
  { unfold is_missing. destruct (Assignment.submission a) as [| |s] eqn:E;
      try (unfold set_late; now rewrite E).
    now rewrite (V s eq_refl), (submission_or_empty_val a s E). }
  assert (Sc : score_of (set_late l a) = score_of a).
  { unfold score_of. destruct (Assignment.submission a) as [| |s] eqn:E;
      try (unfold set_late; now rewrite E).
    now rewrite (V s eq_refl), (submission_or_empty_val a s E). }
  assert (Pt : points_of (set_late l a) = points_of a).
  { unfold points_of, set_late. now destruct (Assignment.submission a). }
  split.
  - rewrite !should_include_unfold, belongs_set_late, Mi, Sc, Pt.
    reflexivity.
  - unfold _assignment_to_record.
    fold (score_of a) (score_of (set_late l a)).
    fold (points_of a) (points_of (set_late l a)). rewrite Sc, Pt.
    assert (R : exists p, record_percent (score_of a) (points_of a) = Ok p).
    { unfold record_percent. destruct (score_of a) as [s|]; [|eauto].
      destruct (points_of a) as [p|]; [|eauto].
      destruct (truthy p); [|eauto].
      destruct (percent_of s p); simpl; eauto. }
    destruct R as [p ->]. simpl. eexists. eexists.
    split; [reflexivity|]. split; [reflexivity|].
    split; [|reflexivity]. unfold set_status, set_late. simpl.
    destruct (Assignment.submission a); reflexivity.
Qed.

End FilterClaims.

(** ** The filter on the fixtures *)

Import Fixtures.

(** The window of the tests is what [isoparse] reads from its bounds. *)
Example window_parsed :
  IsoParse.isoparse "2025-01-01T00:00:00Z" = Ok window_start
  /\ IsoParse.isoparse "2025-03-31T23:59:59Z" = Ok window_end.
Proof. split; reflexivity. Qed.

(** [TestFiltering], test by test. *)
Example tests_of_the_repository :
  let run a :=
    should_include_assignment IsoParse.isoparse a period_ids ranges
      default_threshold in
  run (assignment (Val 1) Absent (Val (submission (Val true) Absent))
         (Val (PyInt 10))) = Ok true
  /\ run (scored 4 10) = Ok true
  /\ run (scored 9 10) = Ok false
  /\ run (assignment (Val 2) Absent (Val (submission (Val true) Absent))
            (Val (PyInt 10))) = Ok false
  /\ run (due_missing "2025-02-15T12:00:00Z") = Ok true
  /\ run (due_missing "2024-10-15T12:00:00Z") = Ok false
  /\ run (assignment (Val 1) Absent (Val (submission (Val false) Null))
            (Val (PyInt 10))) = Ok false
  /\ run (assignment (Val 1) Absent
            (Val (submission (Val false) (Val (PyInt 0)))) Absent) = Ok false
  /\ run (assignment Null (Val "2025-02-20T12:00:00Z")
            (Val (submission (Val false) (Val (PyInt 9))))
            (Val (PyInt 10))) = Ok false.
Proof. vm_compute. repeat split. Qed.

(** The due date of the tests falls in the window: the second clause of
    C1 at work. *)
Lemma window_membership_witness :
  belongs IsoParse.isoparse (due_missing "2025-02-15T12:00:00Z") period_ids
    ranges = Ok true.
Proof.
  apply (proj1 (window_membership IsoParse.isoparse _ _ _)). right.
  exists (Aware 1739620800000000), [], (window_start, window_end), [].
  split.
  - exists "2025-02-15T12:00:00Z".
    split; [reflexivity|]. split; [discriminate|reflexivity].
  - split; [reflexivity|]. split; [split; reflexivity|constructor].
Defined.

(** C1 as stated fails when an earlier range cannot be compared with the
    due date: the due date lies in the second range, every condition of
    the claim holds, and the assignment is still left out. *)
Lemma window_membership_counterexample :
  let a := due_missing "2025-02-15T12:00:00Z" in
  mixed_ranges <> []
  /\ (exists due d r,
        get (Assignment.due_at a) = Some due
        /\ IsoParse.isoparse due = Ok d
        /\ In r mixed_ranges
        /\ dt_le (fst r) d = Ok true /\ dt_le d (snd r) = Ok true)
  /\ belongs IsoParse.isoparse a period_ids mixed_ranges = Ok false
  /\ should_include_assignment IsoParse.isoparse a period_ids mixed_ranges
       default_threshold = Ok false.
Proof.
  split; [discriminate|]. split.
  - exists "2025-02-15T12:00:00Z", (Aware 1739620800000000),
      (window_start, window_end).
    repeat split. right. now left.
  - split; reflexivity.
Qed.


(** The first test of the repository: missing, in period 1. *)
Lemma missing_included_witness :
  should_include_assignment IsoParse.isoparse
    (assignment (Val 1) Absent (Val (submission (Val true) Absent))
       (Val (PyInt 10)))
    period_ids ranges default_threshold = Ok true.
Proof.
  apply (missing_included IsoParse.isoparse _ _ _ _
           (submission (Val true) Absent)); reflexivity.
Defined.


(** A late submission scoring 4 out of 10: included like the punctual
    one. *)
Lemma late_flag_irrelevant_witness :
  should_include_assignment IsoParse.isoparse
    (set_late (Val true) (scored 4 10)) period_ids ranges default_threshold
  = Ok true.
Proof.
  rewrite (proj1 (late_flag_irrelevant IsoParse.isoparse (scored 4 10)
                    period_ids ranges default_threshold (Val true)
                    (course 1 "Biology"))).
  reflexivity.
Defined.

(** The ranges of the counterexample are what the resolver makes of a
    course with two matching grading periods, the first with dates
    without an offset; with them the collector loses the assignment it
    finds when only the second period is there. *)
Example mixed_ranges_from_resolver :
  get_q3_q4_date_ranges IsoParse.isoparse Offsets.http_grading_periods
    (Some 1) 0%nat = (Ok mixed_ranges, 1%nat)
  /\ get_assignments IsoParse.isoparse Offsets.http_grading_periods
       (fun _ w => (Some [due_missing "2025-02-15T12:00:00Z"], S w))
       (Some 1) 0%nat = (Ok [], 3%nat)
  /\ get_assignments IsoParse.isoparse Demo.http_grading_periods
       (fun _ w => (Some [due_missing "2025-02-15T12:00:00Z"], S w))
       (Some 1) 0%nat = (Ok [due_missing "2025-02-15T12:00:00Z"], 3%nat).
Proof. repeat split. Qed.

(** ** The chunker *)

Lemma append_nil (t : string) : ("" ++ t)%string = t.
Proof. reflexivity. Qed.

Lemma append_cons (c : ascii) (s t : string) :
  (String c s ++ t)%string = String c (s ++ t).
Proof. reflexivity. Qed.

Lemma string_app_assoc (s t u : string) :
  ((s ++ t) ++ u = s ++ (t ++ u))%string.
Proof.
  induction s as [|c s IH]; [reflexivity|].
  rewrite !append_cons. now rewrite IH.
Qed.

Lemma len_app (s t : string) : len (s ++ t) = len s + len t.
Proof.
  induction s as [|c s IH]; [reflexivity|].
  rewrite append_cons. simpl. rewrite IH. lia.
Qed.

Lemma len_newline : len newline = 1.
Proof. reflexivity. Qed.

Lemma weight_app (g h : list string) :
  weight (g ++ h) = weight g + weight h.
Proof. induction g as [|l g IH]; simpl; [reflexivity|]. rewrite IH. lia. Qed.

Lemma join_cons (sep line : string) (rest : list string) :
  rest <> [] -> join sep (line :: rest) = (line ++ sep ++ join sep rest)%string.
Proof. destruct rest; [congruence|reflexivity]. Qed.

Lemma join_app (sep : string) (g h : list string) :
  g <> [] -> h <> [] ->
  join sep (g ++ h) = (join sep g ++ sep ++ join sep h)%string.
Proof.
  intros Hg Hh. induction g as [|l g IH]; [congruence|].
  destruct g as [|l' g].
  - simpl app. now rewrite join_cons.
  - change ((l :: l' :: g) ++ h)%list with (l :: ((l' :: g) ++ h))%list.
    rewrite join_cons by (simpl; congruence).
    rewrite IH by congruence.
    rewrite (join_cons sep l (l' :: g)) by congruence.
    now rewrite !string_app_assoc.
Qed.

(** Joining the joined groups is joining all the lines. *)
Lemma join_concat (sep : string) (groups : list (list string)) :
  Forall (fun g => g <> []) groups ->
  join sep (map (join sep) groups) = join sep (concat groups).
Proof.
  induction 1 as [|g groups Hg F IH]; [reflexivity|].
  destruct groups as [|g' groups].
  - simpl. now rewrite app_nil_r.
  - change (map (join sep) (g :: g' :: groups))
      with (join sep g :: map (join sep) (g' :: groups)).
    rewrite join_cons by (simpl; congruence). rewrite IH.
    change (concat (g :: g' :: groups))
      with (g ++ concat (g' :: groups))%list.
    rewrite join_app; [reflexivity|exact Hg|].
    inversion F as [|? ? Hg' _]. simpl. destruct g'; [congruence|].
    simpl. congruence.
Qed.

(** The length of a chunk is what the chunker counted, less the last
    newline. *)
Lemma len_join (g : list string) :
  g <> [] -> len (join newline g) + 1 = weight g.
Proof.
  induction g as [|l g IH]; [congruence|]. intros _.
  destruct g as [|l' g]; [simpl; lia|].
  rewrite join_cons by congruence. rewrite !len_app, len_newline.
  change (weight (l :: l' :: g)) with (len l + 1 + weight (l' :: g)).
  rewrite <- IH by congruence. lia.
Qed.

Lemma chunk_inv_start (max_len : Z) :
  chunk_inv max_len [] (mk_chunker [] [] 0).
Proof.
  exists []. simpl. repeat split; auto.
Qed.

Lemma fits_single (max_len : Z) (line : string) : fits max_len [line].
Proof.
  split; [congruence|]. simpl.
  destruct (Z_le_gt_dec (len line + 1 + 0) max_len) as [H|H]; [now left|].
  right. exists line. split; [reflexivity|lia].
Qed.

Lemma chunk_inv_step (max_len : Z) (seen : list string) (st : chunker)
    (line : string) :
  chunk_inv max_len seen st ->
  chunk_inv max_len (seen ++ [line]) (chunk_step max_len st line).
Proof.
  intros (groups & Hc & Hs & Hf & Hl & Hcur). unfold chunk_step.
  destruct (nonempty (current st)
            && (current_len st + (len line + 1) >? max_len)) eqn:Flush.
  - apply andb_true_iff in Flush as [Hne _].
    exists (groups ++ [current st])%list. simpl.
    split; [now rewrite Hc, map_app|]. split.
    { rewrite concat_app. simpl. rewrite app_nil_r. now rewrite Hs. }
    split.
    { apply Forall_app. split; [exact Hf|]. constructor; [|constructor].
      destruct Hcur as [E|H]; [|exact H]. rewrite E in Hne. discriminate. }
    split; [lia|]. right. apply fits_single.
  - exists groups. simpl.
    split; [exact Hc|]. split; [now rewrite app_assoc, Hs|].
    split; [exact Hf|]. split; [rewrite weight_app, Hl; simpl; lia|].
    right. destruct (current st) as [|l cur] eqn:E; [apply fits_single|].
    split; [simpl; congruence|]. left.
    simpl in Flush.
    rewrite weight_app. simpl weight at 2.
    rewrite Z.gtb_ltb in Flush. apply Z.ltb_ge in Flush. lia.
Qed.

Lemma chunk_inv_loop (max_len : Z) (lines seen : list string) (st : chunker) :
  chunk_inv max_len seen st ->
  chunk_inv max_len (seen ++ lines) (fold_left (chunk_step max_len) lines st).
Proof.
  revert seen st. induction lines as [|line lines IH]; intros seen st H.
  - now rewrite app_nil_r.
  - simpl. replace (seen ++ line :: lines)%list
      with ((seen ++ [line]) ++ lines)%list by now rewrite <- app_assoc.
    apply IH. now apply chunk_inv_step.
Qed.

(** C5.  The chunks are the joined groups of a split of the lines into
    consecutive groups of whole lines: joining the chunks again with
    newlines gives the lines joined with newlines, in order; every
    group, counted with [len(line) + 1] per line, stays within
    [max_len] unless it is a single line that is over [max_len] by
    itself; a chunk is one character shorter than that count, so no
    chunk has more than [max_len] characters unless it is a single line
    that has. *)
Theorem chunk_lines_lossless (lines : list string) (max_len : Z) :
  exists groups : list (list string),
    _chunk_lines lines max_len = map (join newline) groups
    /\ concat groups = lines
    /\ Forall (fits max_len) groups
    /\ Forall (fun g => len (join newline g) + 1 = weight g) groups
    /\ Forall (fun g => len (join newline g) <= max_len
                        \/ exists line, g = [line] /\ max_len < len line)
         groups
    /\ join newline (_chunk_lines lines max_len) = join newline lines.
Proof.
  assert (G : exists groups : list (list string),
            _chunk_lines lines max_len = map (join newline) groups
            /\ concat groups = lines /\ Forall (fits max_len) groups).
  { destruct (chunk_inv_loop max_len lines [] _ (chunk_inv_start max_len))
      as (groups & Hc & Hs & Hf & _ & Hcur).
    simpl in Hs. unfold _chunk_lines.
    destruct (current (fold_left (chunk_step max_len) lines
                         (mk_chunker [] [] 0))) as [|l cur] eqn:E.
    - exists groups. simpl. rewrite app_nil_r in Hs. auto.
    - exists (groups ++ [l :: cur])%list. simpl.
      split; [now rewrite Hc, map_app|]. split.
      + rewrite concat_app. simpl. now rewrite app_nil_r.
      + apply Forall_app. split; [exact Hf|]. constructor; [|constructor].
        destruct Hcur as [H|H]; [discriminate|exact H]. }
  destruct G as (groups & Hc & Hs & Hf). exists groups.
  assert (Hne : Forall (fun g : list string => g <> []) groups)
    by (eapply List.Forall_impl; [|exact Hf]; intros g Hg; apply Hg).
  split; [exact Hc|]. split; [exact Hs|]. split; [exact Hf|].
  split; [|split].
  - eapply List.Forall_impl; [|exact Hne]. intros g Hg. now apply len_join.
  - eapply List.Forall_impl; [|exact Hf]. intros g [Hg [H|(line & -> & H)]].
    + left. pose proof (len_join g Hg). lia.
    + simpl. destruct (Z_le_gt_dec (len line) max_len); [now left|].
      right. exists line. split; [reflexivity|lia].
  - rewrite Hc, <- Hs. now apply join_concat.
Qed.

(** Three lines under a limit of 7: two chunks, the first of two lines. *)
Example chunk_lines_example :
  _chunk_lines ["aaa"; "bb"; "cccc"] 7 = [join newline ["aaa"; "bb"]; "cccc"]
  /\ _chunk_lines ["aaaaaaaaaaaa"; "bb"] 7 = ["aaaaaaaaaaaa"; "bb"]
  /\ _chunk_lines [] default_max_len = [].
Proof. repeat split. Qed.

(** ** Records *)

Lemma record_percent_returns (score pts : option pynum) :
  exists p, record_percent score pts = Ok p.
Proof.
  unfold record_percent. destruct score as [s|]; [|eauto].
  destruct pts as [p|]; [|eauto]. destruct (truthy p); [|eauto].
  destruct (percent_of s p); simpl; eauto.
Qed.

Lemma assignment_to_record_returns (course : Course.t) (a : Assignment.t) :
  exists r, _assignment_to_record course a = Ok r.
Proof.
  unfold _assignment_to_record.
  destruct (record_percent_returns
              (get (Submission.score (submission_or_empty a)))
              (get (Assignment.points_possible a))) as [p ->].
  simpl. eauto.
Qed.

Lemma assignment_to_record_percent (course : Course.t) (a : Assignment.t)
    (r : Rec.t) :
  _assignment_to_record course a = Ok r ->
  record_percent (score_of a) (points_of a) = Ok (get (Rec.percent r))
  /\ Rec.score r = entry (score_of a)
  /\ Rec.points_possible r = entry (points_of a).
Proof.
  unfold _assignment_to_record. fold (score_of a) (points_of a).
  destruct (record_percent (score_of a) (points_of a)) as [p|e];
    simpl; [|discriminate].
  intros E. injection E as <-. simpl. now destruct p.
Qed.

Lemma entry_get {A} (f : field A) : f <> Absent -> entry (get f) = f.
Proof. destruct f; simpl; congruence. Qed.

(** C7, amended.  Building a record never raises.  With a score and a
    non-zero [points_possible], [percent] is
    [round(score / points_possible * 100, 2)] when that arithmetic goes
    through, and [null] when it raises, which only the overflow of an
    [int] makes it do (never a division by zero); [percent] is [null]
    when the score is absent or [points_possible] is absent or zero. *)
Theorem record_percent_spec (course : Course.t) (a : Assignment.t) :
  exists r,
    _assignment_to_record course a = Ok r
    /\ (forall s p v,
          score_of a = Some s -> points_of a = Some p -> truthy p = true ->
          percent_of s p = Ok v -> Rec.percent r = Val (round2 v))
    /\ (forall s p e,
          score_of a = Some s -> points_of a = Some p -> truthy p = true ->
          percent_of s p = Raise e ->
          e = OverflowError /\ Rec.percent r = Null)
    /\ (score_of a = None \/ points_of a = None
          \/ (exists p, points_of a = Some p /\ truthy p = false) ->
        Rec.percent r = Null).
Proof.
  destruct (assignment_to_record_returns course a) as [r E]. exists r.
  split; [exact E|].
  assert (P : Rec.percent r <> Absent).
  { revert E. unfold _assignment_to_record.
    destruct (record_percent _ _) as [p|x]; simpl; [|discriminate].
    intros E. injection E as <-. simpl. now destruct p. }
  apply assignment_to_record_percent in E as (E & _ & _).
  unfold record_percent in E. split; [|split].
  - intros s p v S Pt T V. rewrite S, Pt, T, V in E. simpl in E.
    injection E as E. rewrite <- (entry_get _ P), <- E. reflexivity.
  - intros s p e S Pt T V.
    split; [exact (percent_of_raises s p e T V)|].
    rewrite S, Pt, T, V in E. simpl in E.
    injection E as E. rewrite <- (entry_get _ P), <- E. reflexivity.
  - intros H.
    assert (N : get (Rec.percent r) = None).
    { destruct H as [H|[H|(p & H & T)]].
      - rewrite H in E. congruence.
      - rewrite H in E. destruct (score_of a); congruence.
      - rewrite H, T in E. destruct (score_of a); congruence. }
    rewrite <- (entry_get _ P), N. reflexivity.
Qed.

(** 1 out of 3: 33.33. *)
Lemma record_percent_spec_witness :
  exists r,
    _assignment_to_record (Fixtures.course 1 "Biology") (Fixtures.scored 1 3)
    = Ok r
    /\ Rec.percent r = Val (S754_finite false 4690780486883082 (-47))
    /\ _format_percent r = "33.33%".
Proof.
  destruct (record_percent_spec (Fixtures.course 1 "Biology")
              (Fixtures.scored 1 3)) as (r & E & H & _).
  exists r. split; [exact E|].
  assert (P : Rec.percent r = Val (S754_finite false 4690780486883082 (-47))).
  { apply (H (PyInt 1) (PyInt 3) (S754_finite false 4691249611844266 (-47)));
      reflexivity. }
  split; [exact P|]. unfold _format_percent. rewrite P. reflexivity.
Defined.

(** C7 as stated fails on a score too large for a float: the
    assignment passes the filter (it is flagged missing), its score is
    present, [points_possible] is 2.5, the division raises
    [OverflowError], and the record has [percent] [null]. *)
Lemma record_percent_counterexample :
  should_include_assignment IsoParse.isoparse Fixtures.huge_score
    Fixtures.period_ids Fixtures.ranges default_threshold = Ok true
  /\ score_of Fixtures.huge_score = Some (PyInt (10 ^ 400))
  /\ points_of Fixtures.huge_score
     = Some (PyFloat (S754_finite false 5 (-1)))
  /\ truthy (PyFloat (S754_finite false 5 (-1))) = true
  /\ percent_of (PyInt (10 ^ 400)) (PyFloat (S754_finite false 5 (-1)))
     = Raise OverflowError
  /\ exists r,
       _assignment_to_record (Fixtures.course 1 "Biology") Fixtures.huge_score
       = Ok r
       /\ Rec.percent r = Null.
Proof.
  repeat split. vm_compute. eexists. split; reflexivity.
Qed.

(** ** Notifications *)

Section NotifyProperties.

Variable env_webhook_url : option string.
Variable DEFAULT_DISCORD_WEBHOOK_URL : option string.
Variable post_ok : string -> string -> bool.

(** C6, amended.  With a webhook url configured, an empty record set
    makes exactly one payload, the fixed all-clear message, and that
    one payload is posted; the chunker, which would give no chunk at
    all, is not asked. *)
Theorem all_clear_when_empty (webhook_url : option string) (url : string) :
  effective_url env_webhook_url DEFAULT_DISCORD_WEBHOOK_URL webhook_url
  = Some url -> url <> "" ->
  let s := send_discord_notifications env_webhook_url
             DEFAULT_DISCORD_WEBHOOK_URL post_ok [] webhook_url in
  payloads_of [] = Ok [all_clear]
  /\ posted s = [(url, all_clear)]
  /\ printed s = []
  /\ _chunk_lines [] default_max_len = [].
Proof.
  unfold effective_url. intros E N. simpl.
  split; [reflexivity|]. unfold send_discord_notifications. rewrite E.
  apply str_truthy_nonempty in N. rewrite N. simpl.
  destruct (post_ok url all_clear); repeat split.
Qed.

End NotifyProperties.

(** The url comes from the environment. *)
Lemma all_clear_when_empty_witness :
  posted (send_discord_notifications (Some "https://discord.test/hook") None
            (fun _ _ => true) [] None)
  = [("https://discord.test/hook", all_clear)].
Proof.
  apply (all_clear_when_empty (Some "https://discord.test/hook") None
           (fun _ _ => true) None "https://discord.test/hook");
    [reflexivity|discriminate].
Defined.

(** C6 as stated fails when no webhook url is configured: the record
    set is empty and no payload is made or posted. *)
Lemma all_clear_counterexample :
  let s := send_discord_notifications None None (fun _ _ => true) [] None in
  posted s = [] /\ printed s = [not_configured] /\ outcome s = Ok tt.
Proof. repeat split. Qed.

(** ** The two filters *)

(** C9.  The filter of [canvas_test.py] and the condition of
    [find_bad_assignments] disagree: an assignment of the window that
    scores exactly 50% is included by the first and not reported by the
    second (strict [< 50]); a score of 40 without [points_possible]
    (100 by default in the second), and a submission without a score
    (0% in the second), are reported by the second and excluded by the
    first. *)
Theorem filters_disagree (isoparse : string -> py_result datetime) :
  (exists a period_ids ranges,
     should_include_assignment isoparse a period_ids ranges default_threshold
     = Ok true
     /\ CheckAssignments.flagged a = Ok false
     /\ CheckAssignments.scan (Some "Biology") [a] [] = Ok [])
  /\ (exists a period_ids ranges,
        points_of a = None /\ score_of a = Some (PyInt 40)
        /\ should_include_assignment isoparse a period_ids ranges
             default_threshold = Ok false
        /\ CheckAssignments.flagged a = Ok true
        /\ CheckAssignments.scan (Some "Biology") [a] []
           = Ok ["**Biology** – Essay (40.0%)"])
  /\ (exists a period_ids ranges,
        score_of a = None /\ is_missing a = false
        /\ should_include_assignment isoparse a period_ids ranges
             default_threshold = Ok false
        /\ CheckAssignments.flagged a = Ok true
        /\ CheckAssignments.scan (Some "Biology") [a] []
           = Ok ["**Biology** – Essay (0.0%)"]).
Proof.
  split; [|split].
  - exists (Fixtures.named "Essay" (Fixtures.scored 5 10)),
      Fixtures.period_ids, Fixtures.ranges.
    repeat split.
  - exists (Fixtures.named "Essay"
              (Fixtures.assignment (Val 1) Absent
                 (Val (Fixtures.submission (Val false) (Val (PyInt 40))))
                 Absent)),
      Fixtures.period_ids, Fixtures.ranges.
    repeat split.
  - exists (Fixtures.named "Essay"
              (Fixtures.assignment (Val 1) Absent
                 (Val (Fixtures.submission (Val false) Null))
                 (Val (PyInt 10)))),
      Fixtures.period_ids, Fixtures.ranges.
    repeat split.
Qed.

(** ** The collector *)

Local Open Scope list_scope.

Lemma map_result_returns {A B} (f : A -> py_result B) (xs : list A) :
  (forall x, exists y, f x = Ok y) -> exists ys, map_result f xs = Ok ys.
Proof.
  intros H. induction xs as [|x xs [ys IH]]; simpl; [eauto|].
  destruct (H x) as [y ->]. simpl. rewrite IH. simpl. eauto.
Qed.

Lemma filter_result_returns {A} (f : A -> py_result bool) (xs : list A) :
  (forall x, exists b, f x = Ok b) -> exists ys, filter_result f xs = Ok ys.
Proof.
  intros H. induction xs as [|x xs [ys IH]]; simpl; [eauto|].
  destruct (H x) as [b ->]. simpl. rewrite IH. simpl. eauto.
Qed.

Section CollectorProperties.

Variable isoparse : string -> py_result datetime.
Context {world : Type}.
Variable http_courses : world -> option (list Course.t) * world.
Variable http_grading_periods :
  option Z -> world -> option periods_payload * world.
Variable http_assignments :
  option Z -> world -> option (list Assignment.t) * world.

Let fetch := get_assignments isoparse http_grading_periods http_assignments.
Let loop := collect_loop isoparse http_grading_periods http_assignments.
Let collect :=
  collect_results isoparse http_courses http_grading_periods
    http_assignments.

Lemma period_range_returns (p : GradingPeriod.t) :
  exists r, period_range isoparse p = Ok r.
Proof.
  unfold period_range.
  destruct (get (GradingPeriod.start_date p)) as [s|]; [|eauto].
  destruct (get (GradingPeriod.end_date p)) as [e|]; [|eauto].
  destruct (str_truthy s && str_truthy e); [|eauto].
  destruct (isoparse s) as [ds|x]; simpl; [|eauto].
  destruct (isoparse e) as [de|x]; simpl; eauto.
Qed.

(** The only exception [get_assignments] lets out is the
    [RuntimeError] of a failed request. *)
Lemma get_assignments_raises (course_id : option Z) (w w' : world)
    (e : exn) :
  fetch course_id w = (Raise e, w') -> e = RuntimeError.
Proof.
  unfold fetch, get_assignments, get_q3_q4_period_ids,
    get_q3_q4_date_ranges, _get_q3_q4_periods, bind, ret, lift, request.
  destruct (http_grading_periods course_id w) as [[payload|] w1];
    [|congruence].
  destruct (http_grading_periods course_id w1) as [[payload'|] w2];
    [|congruence].
  match goal with
  | |- context [map_result (period_range isoparse) ?ps] =>
      destruct (map_result_returns (period_range isoparse) ps
                  period_range_returns) as [out ->]
  end.
  destruct (bool_decide _ && negb _); [congruence|].
  destruct (http_assignments course_id w2) as [[pages|] w3]; [|congruence].
  match goal with
  | |- context [filter_result ?f pages] =>
      destruct (filter_result_returns f pages) as [kept ->];
        [intros a; apply should_include_returns|congruence]
  end.
Qed.

Lemma collect_loop_acc (courses : list Course.t) (results : list Rec.t)
    (w : world) :
  loop courses results w
  = match loop courses [] w with
    | (Ok new, w') => (Ok (results ++ new)%list, w')
    | (Raise e, w') => (Raise e, w')
    end.
Proof.
  unfold loop. revert results w.
  induction courses as [|c rest IH]; intros results w; simpl.
  - unfold ret. now rewrite app_nil_r.
  - destruct (getitem (Course.id c)) as [course_id|e]; [|reflexivity].
    destruct (get_assignments _ _ _ course_id w) as [[assignments|e] w'].
    + destruct (map_result (_assignment_to_record c) assignments)
        as [records|e]; [|reflexivity].
      rewrite (IH (results ++ records)), (IH records).
      destruct (collect_loop _ _ _ rest [] w') as [[new|e] w''];
        [|reflexivity].
      now rewrite app_assoc.
    + destruct e; try reflexivity. apply IH.
Qed.

Lemma collect_loop_app (pre post : list Course.t) (results : list Rec.t)
    (w : world) :
  loop (pre ++ post) results w
  = match loop pre results w with
    | (Ok r, w') => loop post r w'
    | (Raise e, w') => (Raise e, w')
    end.
Proof.
  unfold loop. revert results w.
  induction pre as [|c pre IH]; intros results w; simpl; [reflexivity|].
  destruct (getitem (Course.id c)) as [course_id|e]; [|reflexivity].
  destruct (get_assignments _ _ _ course_id w) as [[assignments|e] w'].
  - destruct (map_result (_assignment_to_record c) assignments)
      as [records|e]; [|reflexivity].
    apply IH.
  - destruct e; try reflexivity. apply IH.
Qed.

(** With an id on every course the loop runs to its end. *)
Lemma collect_loop_returns (courses : list Course.t) (results : list Rec.t)
    (w : world) :
  Forall (fun c => Course.id c <> Absent) courses ->
  exists r w', loop courses results w = (Ok r, w').
Proof.
  unfold loop. intros F. revert results w.
  induction F as [|c rest Hc F IH]; intros results w; simpl.
  - unfold ret. eauto.
  - destruct (Course.id c) as [| |i] eqn:E; try congruence; simpl.
    + destruct (get_assignments _ _ _ None w) as [[assignments|e] w'] eqn:G.
      * destruct (map_result_returns (_assignment_to_record c) assignments
                    (assignment_to_record_returns c)) as [records ->].
        apply IH.
      * apply get_assignments_raises in G as ->. apply IH.
    + destruct (get_assignments _ _ _ (Some i) w)
        as [[assignments|e] w'] eqn:G.
      * destruct (map_result_returns (_assignment_to_record c) assignments
                    (assignment_to_record_returns c)) as [records ->].
        apply IH.
      * apply get_assignments_raises in G as ->. apply IH.
Qed.

(** C8.  When the courses are [pre ++ c :: post] and fetching or
    filtering the assignments of [c] raises the [RuntimeError] of a
    failed request, the error is swallowed: [c] adds no record, the
    courses after it are processed in order from the world the
    failure left, and the result is the records of the courses before
    [c] followed by those of the courses after it. *)
Theorem failed_course_skipped (pre post : list Course.t) (c : Course.t)
    (course_id : option Z) (before : list Rec.t) (w0 w w1 w2 : world) :
  get_courses http_courses w0 = (Ok (pre ++ c :: post), w) ->
  loop pre [] w = (Ok before, w1) ->
  getitem (Course.id c) = Ok course_id ->
  fetch course_id w1 = (Raise RuntimeError, w2) ->
  collect w0
  = match loop post [] w2 with
    | (Ok after, w3) => (Ok (before ++ after)%list, w3)
    | (Raise e, w3) => (Raise e, w3)
    end
  /\ (Forall (fun c => Course.id c <> Absent) post ->
      exists after w3,
        loop post [] w2 = (Ok after, w3)
        /\ collect w0 = (Ok (before ++ after)%list, w3)).
Proof.
  intros C Pre Id Fail.
  assert (E : collect w0
              = match loop post [] w2 with
                | (Ok after, w3) => (Ok (before ++ after)%list, w3)
                | (Raise e, w3) => (Raise e, w3)
                end).
  { unfold collect. unfold collect_results, bind.
    rewrite C. fold loop. rewrite collect_loop_app, Pre.
    unfold loop. simpl. rewrite Id. fold fetch. rewrite Fail.
    apply collect_loop_acc. }
  split; [exact E|]. intros F.
  destruct (collect_loop_returns post [] w2 F) as (after & w3 & L).
  exists after, w3. split; [exact L|]. now rewrite E, L.
Qed.

End CollectorProperties.

(** The demo world: the grading periods of course 2 cannot be fetched;
    the report holds the two records of course 1 and the two of
    course 3. *)
Lemma failed_course_skipped_witness :
  exists before after w3,
    collect_loop IsoParse.isoparse Fixtures.Demo.http_grading_periods
      Fixtures.Demo.http_assignments [Fixtures.course 1 "Biology"] [] 1%nat
    = (Ok before, 4%nat)
    /\ collect_loop IsoParse.isoparse Fixtures.Demo.http_grading_periods
         Fixtures.Demo.http_assignments [Fixtures.course 3 "Maths"] [] 5%nat
       = (Ok after, w3)
    /\ length before = 2%nat /\ length after = 2%nat
    /\ collect_results IsoParse.isoparse Fixtures.Demo.http_courses
         Fixtures.Demo.http_grading_periods Fixtures.Demo.http_assignments
         0%nat
       = (Ok (before ++ after)%list, w3).
Proof.
  destruct (collect_loop IsoParse.isoparse Fixtures.Demo.http_grading_periods
              Fixtures.Demo.http_assignments [Fixtures.course 1 "Biology"] []
              1%nat) as [r w1] eqn:Pre.
  vm_compute in Pre.
  match type of Pre with (Ok ?b, _) = _ => set (before := b) in * end.
  injection Pre as <- <-.
  destruct (failed_course_skipped IsoParse.isoparse
              Fixtures.Demo.http_courses Fixtures.Demo.http_grading_periods
              Fixtures.Demo.http_assignments
              [Fixtures.course 1 "Biology"] [Fixtures.course 3 "Maths"]
              (Fixtures.course 2 "History") (Some 2) before
              0%nat 1%nat 4%nat 5%nat)
    as [_ H]; try reflexivity.
  destruct H as (after & w3 & L & E).
  { repeat constructor; discriminate. }
  exists before, after, w3. split; [reflexivity|]. split; [exact L|].
  split; [reflexivity|]. split; [|exact E].
  vm_compute in L. injection L as <- _. reflexivity.
Defined.

(** The whole run on the demo world: one payload with the four lines. *)
Example demo_run :
  exists records w,
    collect_results IsoParse.isoparse Fixtures.Demo.http_courses
      Fixtures.Demo.http_grading_periods Fixtures.Demo.http_assignments
      0%nat = (Ok records, w)
    /\ posted (send_discord_notifications None
                 (Some "https://discord.test/hook") (fun _ _ => true)
                 records None)
       = [("https://discord.test/hook",
           join newline
             ["**Biology** — Unnamed Assignment (low score, 40.00%)";
              "**Biology** — Unnamed Assignment (missing, N/A)";
              "**Maths** — Unnamed Assignment (low score, 40.00%)";
              "**Maths** — Unnamed Assignment (missing, N/A)"])].
Proof. eexists. eexists. split; [vm_compute; reflexivity|reflexivity]. Qed.

(** * Further properties of the code *)

(** ** The filter *)

Lemma float_le_trans (x y z : float) :
  float_le x y = true -> float_le y z = true -> float_le x z = true.
Proof.
  unfold float_le, SFleb.
  destruct x as [sx|sx| |sx mx ex], y as [sy|sy| |sy my ey],
    z as [sz|sz| |sz mz ez]; simpl;
    try discriminate; try reflexivity;
    try (destruct sx; simpl; (discriminate || reflexivity));
    try (destruct sy; simpl; (discriminate || reflexivity));
    try (destruct sz; simpl; (discriminate || reflexivity));
    try (destruct sx, sy; simpl; (discriminate || reflexivity));
    try (destruct sy, sz; simpl; (discriminate || reflexivity));
    try (destruct sx, sz; simpl; (discriminate || reflexivity));
    try (destruct sx, sy, sz; simpl; (discriminate || reflexivity)).
  all: change (Pos.compare_cont Eq mx my) with (mx ?= my)%positive;
    change (Pos.compare_cont Eq my mz) with (my ?= mz)%positive;
    change (Pos.compare_cont Eq mx mz) with (mx ?= mz)%positive.
  all: destruct sx, sy, sz; simpl; try discriminate; try reflexivity;
    destruct (Z.compare_spec ex ey), (Z.compare_spec ey ez),
      (Z.compare_spec ex ez); try lia; simpl;
    try discriminate; try reflexivity;
    destruct (Pos.compare_spec mx my), (Pos.compare_spec my mz),
      (Pos.compare_spec mx mz); simpl; try lia;
    try discriminate; try reflexivity.
Qed.

Section FilterExtras.

Variable isoparse : string -> py_result datetime.

Implicit Types (a : Assignment.t) (period_ids : gset (option Z)).
Implicit Types (ranges : list (datetime * datetime)) (thr : float).

(** The answer of the filter, given that of the window check. *)
Lemma should_include_of_belongs a period_ids ranges thr (b : bool) :
  belongs isoparse a period_ids ranges = Ok b ->
  should_include_assignment isoparse a period_ids ranges thr
  = if negb b then Ok false
    else if is_missing a then Ok true
    else
      match score_of a, points_of a with
      | Some score, Some points =>
          if truthy points then
            try_except
              (and_then (percent_of score points)
                 (fun p => Ok (float_le p thr)))
              (fun _ => Ok false)
          else Ok false
      | _, _ => Ok false
      end.
Proof. intros B. rewrite should_include_unfold, B. reflexivity. Qed.

Lemma included_belongs a period_ids ranges thr :
  should_include_assignment isoparse a period_ids ranges thr = Ok true ->
  belongs isoparse a period_ids ranges = Ok true.
Proof.
  destruct (belongs_returns isoparse a period_ids ranges) as [b B].
  rewrite (should_include_of_belongs _ _ _ _ b B).
  destruct b; [intros _; exact B|discriminate].
Qed.

(** X1.  Raising the threshold never drops an assignment: what the
    filter includes at [thr] it includes at every [thr' >= thr]. *)
Theorem threshold_monotone a period_ids ranges thr thr' :
  float_le thr thr' = true ->
  should_include_assignment isoparse a period_ids ranges thr = Ok true ->
  should_include_assignment isoparse a period_ids ranges thr' = Ok true.
Proof.
  intros L H. pose proof (included_belongs _ _ _ _ H) as B.
  rewrite (should_include_of_belongs _ _ _ _ true B) in H.
  rewrite (should_include_of_belongs _ _ _ _ true B).
  cbn [negb] in *.
  destruct (is_missing a); [reflexivity|].
  destruct (score_of a) as [s|]; [|discriminate].
  destruct (points_of a) as [p|]; [|discriminate].
  destruct (truthy p); [|discriminate].
  destruct (percent_of s p) as [v|x]; cbn [and_then try_except] in *;
    [|discriminate].
  injection H as H. now rewrite (float_le_trans v thr thr' H L).
Qed.

Lemma belongs_monotone a period_ids period_ids' ranges more :
  period_ids ⊆ period_ids' ->
  belongs isoparse a period_ids ranges = Ok true ->
  belongs isoparse a period_ids' (ranges ++ more) = Ok true.
Proof.
  intros S B. apply belongs_true. apply belongs_true in B.
  destruct B as [(g & G & M)|(d & pre & r & post & D & -> & W & F)].
  - left. exists g. split; [exact G|]. now apply S.
  - right. exists d, pre, r, (post ++ more).
    split; [exact D|]. split; [|split; assumption].
    now rewrite <- app_assoc.
Qed.

(** X2.  Widening the window never drops an assignment: with more
    period ids, and with more ranges after the ones there are, the
    filter still includes what it included. *)
Theorem window_monotone a period_ids period_ids' ranges more thr :
  period_ids ⊆ period_ids' ->
  should_include_assignment isoparse a period_ids ranges thr = Ok true ->
  should_include_assignment isoparse a period_ids' (ranges ++ more) thr
  = Ok true.
Proof.
  intros S H. pose proof (included_belongs _ _ _ _ H) as B.
  pose proof (belongs_monotone _ _ period_ids' _ more S B) as B'.
  rewrite (should_include_of_belongs _ _ _ _ true B) in H.
  now rewrite (should_include_of_belongs _ _ _ _ true B').
Qed.

(** With no period id and no range nothing belongs to the window. *)
Lemma empty_window_excludes a thr :
  should_include_assignment isoparse a ∅ [] thr = Ok false.
Proof.
  apply not_belonging_excluded. unfold belongs.
  destruct (get (Assignment.grading_period_id a)) as [g|]; simpl.
  - rewrite bool_decide_eq_false_2 by set_solver. reflexivity.
  - reflexivity.
Qed.

End FilterExtras.

(** 40% at a threshold of 50 is still included at 60. *)
Lemma threshold_monotone_witness :
  should_include_assignment IsoParse.isoparse (Fixtures.scored 4 10)
    Fixtures.period_ids Fixtures.ranges (lit 60) = Ok true.
Proof.
  apply (threshold_monotone IsoParse.isoparse _ _ _ default_threshold);
    reflexivity.
Defined.

(** Period 2 and a second range are added to the window of the tests. *)
Lemma window_monotone_witness :
  should_include_assignment IsoParse.isoparse
    (Fixtures.due_missing "2025-02-15T12:00:00Z")
    ({[ Some 1; Some 2 ]} : gset (option Z))
    (Fixtures.ranges ++ [(Naive 0, Naive 1)]) default_threshold = Ok true.
Proof.
  apply (window_monotone IsoParse.isoparse _ Fixtures.period_ids);
    [|reflexivity].
  refine (bool_decide_unpack _ _). vm_compute. exact I.
Defined.

(** ** The resolver and the collector *)

Lemma filter_result_filter {A} (f : A -> py_result bool) (g : A -> bool)
    (xs : list A) :
  (forall x, f x = Ok (g x)) -> filter_result f xs = Ok (List.filter g xs).
Proof.
  intros H. induction xs as [|x xs IH]; simpl; [reflexivity|].
  rewrite H, IH. simpl. reflexivity.
Qed.



Section CollectorExtras.

Variable isoparse : string -> py_result datetime.
Context {world : Type}.
Variable http_courses : world -> option (list Course.t) * world.
Variable http_grading_periods :
  option Z -> world -> option periods_payload * world.
Variable http_assignments :
  option Z -> world -> option (list Assignment.t) * world.

Let ids_of := get_q3_q4_period_ids http_grading_periods.
Let ranges_of := get_q3_q4_date_ranges isoparse http_grading_periods.
Let fetch := get_assignments isoparse http_grading_periods http_assignments.
Let loop := collect_loop isoparse http_grading_periods http_assignments.
Let collect :=
  collect_results isoparse http_courses http_grading_periods
    http_assignments.

Lemma accepted_spec (period_ids : gset (option Z))
    (ranges : list (datetime * datetime)) (a : Assignment.t) :
  should_include_assignment isoparse a period_ids ranges default_threshold
  = Ok (accepted isoparse period_ids ranges a).
Proof.
  unfold accepted.
  now destruct (should_include_returns isoparse a period_ids ranges
                  default_threshold) as [b ->].
Qed.

(** [get_assignments], once the two resolver calls have answered. *)
Lemma get_assignments_steps (course_id : option Z) (w w1 w2 : world)
    (ids : list (option Z)) (ranges : list (datetime * datetime)) :
  ids_of course_id w = (Ok ids, w1) ->
  ranges_of course_id w1 = (Ok ranges, w2) ->
  fetch course_id w
  = if bool_decide (list_to_set ids = (∅ : gset (option Z)))
       && negb (nonempty ranges)
    then (Ok [], w2)
    else
      match http_assignments course_id w2 with
      | (Some pages, w3) =>
          (Ok (List.filter (accepted isoparse (list_to_set ids) ranges) pages),
           w3)
      | (None, w3) => (Raise RuntimeError, w3)
      end.
Proof.
  unfold ids_of, ranges_of, fetch, get_assignments. intros I R.
  unfold bind at 1. rewrite I. unfold bind at 1. rewrite R.
  destruct (bool_decide _ && negb _); [reflexivity|].
  unfold bind, request, lift.
  destruct (http_assignments course_id w2) as [[pages|] w3]; [|reflexivity].
  rewrite (filter_result_filter _
             (accepted isoparse (list_to_set ids) ranges)); [reflexivity|].
  intros a. apply accepted_spec.
Qed.

Lemma list_to_set_empty (ids : list (option Z)) :
  list_to_set ids = (∅ : gset (option Z)) <-> ids = [].
Proof.
  split; [|now intros ->].
  destruct ids as [|i ids]; [reflexivity|]. simpl. intros E.
  exfalso. assert (i ∈ (∅ : gset (option Z))) by (rewrite <- E; set_solver).
  set_solver.
Qed.

Lemma filter_empty_window (pages : list Assignment.t) :
  List.filter (accepted isoparse ∅ []) pages = [].
Proof.
  induction pages as [|a pages IH]; [reflexivity|]. simpl.
  unfold accepted at 1. now rewrite empty_window_excludes.
Qed.

(** X3.  A course without a target window costs no assignment
    request: when the resolver yields neither a period id nor a range,
    [get_assignments] returns the empty list from the world the two
    resolver calls left, whatever the assignment service would have
    answered; and nothing is lost by that, for with no id and no range
    the filter rejects every assignment. *)
Theorem no_window_no_fetch (course_id : option Z) (w w1 w2 : world) :
  ids_of course_id w = (Ok [], w1) ->
  ranges_of course_id w1 = (Ok [], w2) ->
  fetch course_id w = (Ok [], w2)
  /\ (forall a thr,
        should_include_assignment isoparse a ∅ [] thr = Ok false).
Proof.
  intros I R. split; [|intros a thr; apply empty_window_excludes].
  rewrite (get_assignments_steps course_id w w1 w2 [] [] I R).
  reflexivity.
Qed.

(** X4.  [get_assignments] returns exactly the fetched assignments that
    the filter accepts for the resolved ids and ranges, in the order
    they were fetched; the assignment request is made iff the resolver
    gave an id or a range. *)
Theorem get_assignments_filters (course_id : option Z) (w w1 w2 w3 : world)
    (ids : list (option Z)) (ranges : list (datetime * datetime))
    (pages : list Assignment.t) :
  ids_of course_id w = (Ok ids, w1) ->
  ranges_of course_id w1 = (Ok ranges, w2) ->
  http_assignments course_id w2 = (Some pages, w3) ->
  fetch course_id w
  = (Ok (List.filter (accepted isoparse (list_to_set ids) ranges) pages),
     if nonempty ids || nonempty ranges then w3 else w2).
Proof.
  intros I R P.
  rewrite (get_assignments_steps course_id w w1 w2 ids ranges I R).
  destruct (bool_decide _ && negb _) eqn:N.
  - apply andb_true_iff in N as [N1 N2].
    apply bool_decide_eq_true in N1. rewrite N1.
    apply list_to_set_empty in N1 as ->.
    destruct ranges; [|discriminate]. simpl.
    now rewrite filter_empty_window.
  - rewrite P. f_equal.
    destruct ids as [|i ids]; [|reflexivity].
    destruct ranges; [|reflexivity]. simpl in N.
    rewrite bool_decide_eq_true_2 in N by reflexivity. discriminate.
Qed.






End CollectorExtras.

(** The course with the two semesters: two resolver requests, no
    assignment request. *)
Lemma no_window_no_fetch_witness :
  get_assignments IsoParse.isoparse MoreFixtures.http_semesters
    Fixtures.Demo.http_assignments (Some 5) 0%nat = (Ok [], 2%nat).
Proof.
  apply (no_window_no_fetch IsoParse.isoparse MoreFixtures.http_semesters
           Fixtures.Demo.http_assignments (Some 5) 0%nat 1%nat 2%nat);
    reflexivity.
Defined.

(** Course 1 of the demo world: of the three assignments fetched, the
    one at 90% is filtered out. *)
Lemma get_assignments_filters_witness :
  get_assignments IsoParse.isoparse Fixtures.Demo.http_grading_periods
    Fixtures.Demo.http_assignments (Some 1) 0%nat
  = (Ok [Fixtures.scored 4 10;
         Fixtures.due_missing "2025-02-15T12:00:00Z"], 3%nat).
Proof.
  rewrite (get_assignments_filters IsoParse.isoparse
             Fixtures.Demo.http_grading_periods
             Fixtures.Demo.http_assignments (Some 1) 0%nat 1%nat 2%nat 3%nat
             [Some 1] Fixtures.ranges
             [Fixtures.scored 4 10; Fixtures.scored 9 10;
              Fixtures.due_missing "2025-02-15T12:00:00Z"]);
    reflexivity.
Defined.



(** ** The chunker, as a greedy packing *)

Lemma tight_snoc (max_len : Z) (gs : list (list string))
    (g h : list string) :
  tight max_len (gs ++ [g]) -> max_len < weight g + first_weight h ->
  tight max_len ((gs ++ [g]) ++ [h]).
Proof.
  intros T H. induction gs as [|g0 gs IH].
  - simpl. auto.
  - simpl in T |- *. destruct T as [T1 T2]. split; [|now apply IH].
    destruct gs; exact T1.
Qed.

Lemma tight_grow (max_len : Z) (gs : list (list string))
    (g more : list string) :
  tight max_len (gs ++ [g]) -> g <> [] ->
  tight max_len (gs ++ [g ++ more]).
Proof.
  intros T Hg. induction gs as [|g0 gs IH].
  - simpl. auto.
  - simpl in T |- *. destruct T as [T1 T2]. split; [|now apply IH].
    destruct gs as [|g1 gs]; [|exact T1]. simpl in T1 |- *.
    destruct g; [congruence|]. exact T1.
Qed.

Lemma greedy_inv_start (max_len : Z) :
  greedy_inv max_len [] (mk_chunker [] [] 0).
Proof. exists []. simpl. repeat split; auto. Qed.

Lemma greedy_inv_step (max_len : Z) (seen : list string) (st : chunker)
    (line : string) :
  greedy_inv max_len seen st ->
  greedy_inv max_len (seen ++ [line]) (chunk_step max_len st line).
Proof.
  intros (groups & Hc & Hs & Hn & Ht & Hl & He).
  unfold chunk_step. unfold open_group in Hs, Hn, Ht.
  destruct (current st) as [|l cur] eqn:Cur.
  - (* nothing collected yet: the line opens the first group *)
    rewrite (He eq_refl) in *. cbn [nonempty andb].
    exists []. unfold open_group. cbn [chunks current current_len].
    rewrite Cur. simpl in *. subst seen.
    split; [exact Hc|]. split; [reflexivity|].
    split; [constructor; [congruence|constructor]|].
    split; [auto|]. split; [lia|congruence].
  - cbn [nonempty andb].
    destruct (current_len st + (len line + 1) >? max_len) eqn:Flush.
    + (* the group is closed and the line opens the next *)
      exists (groups ++ [l :: cur]). unfold open_group.
      cbn [chunks current current_len app].
      split; [now rewrite Hc, map_app|]. split.
      { rewrite concat_app. simpl. now rewrite Hs. }
      split.
      { apply Forall_app. split; [exact Hn|].
        constructor; [congruence|constructor]. }
      split.
      { apply tight_snoc; [exact Ht|]. simpl first_weight.
        rewrite Z.gtb_ltb in Flush. apply Z.ltb_lt in Flush.
        rewrite Hl in Flush. lia. }
      split; [simpl; lia|]. congruence.
    + (* the line joins the group *)
      exists groups. unfold open_group.
      cbn [chunks current current_len]. rewrite Cur.
      change ((l :: cur) ++ [line])%list with (l :: (cur ++ [line]))%list.
      cbv iota.
      change (l :: (cur ++ [line]))%list with ((l :: cur) ++ [line])%list.
      split; [exact Hc|]. split.
      { rewrite concat_app in *. simpl in *. rewrite app_nil_r in *.
        rewrite <- Hs. now rewrite <- !app_assoc. }
      split.
      { apply Forall_app in Hn as [Hn _]. apply Forall_app.
        split; [exact Hn|]. constructor; [simpl; congruence|constructor]. }
      split.
      { apply (tight_grow max_len groups (l :: cur) [line] Ht). congruence. }
      split; [rewrite Hl, weight_app; simpl; lia|].
      simpl. congruence.
Qed.

Lemma greedy_inv_loop (max_len : Z) (lines seen : list string)
    (st : chunker) :
  greedy_inv max_len seen st ->
  greedy_inv max_len (seen ++ lines)
    (fold_left (chunk_step max_len) lines st).
Proof.
  revert seen st. induction lines as [|line lines IH]; intros seen st H.
  - now rewrite app_nil_r.
  - simpl. replace (seen ++ line :: lines)%list
      with ((seen ++ [line]) ++ lines)%list by now rewrite <- app_assoc.
    apply IH. now apply greedy_inv_step.
Qed.

(** The chunks as the groups of a greedy packing. *)
Lemma chunk_lines_groups (lines : list string) (max_len : Z) :
  exists groups : list (list string),
    _chunk_lines lines max_len = map (join newline) groups
    /\ concat groups = lines
    /\ Forall (fun g => g <> []) groups
    /\ tight max_len groups.
Proof.
  destruct (greedy_inv_loop max_len lines [] _ (greedy_inv_start max_len))
    as (groups & Hc & Hs & Hn & Ht & _ & _).
  simpl in Hs. unfold _chunk_lines, open_group in *.
  destruct (current (fold_left (chunk_step max_len) lines
                       (mk_chunker [] [] 0))) as [|l cur].
  - exists groups. rewrite app_nil_r in *. auto.
  - exists (groups ++ [l :: cur]). simpl.
    split; [now rewrite Hc, map_app|]. auto.
Qed.

Lemma concat_length_lower (groups : list (list string)) :
  Forall (fun g => g <> []) groups ->
  (length groups <= length (concat groups))%nat.
Proof.
  induction 1 as [|g groups Hg F IH]; simpl; [lia|].
  rewrite length_app. destruct g; [congruence|]. simpl. lia.
Qed.

Lemma weight_nonneg_first (g : list string) :
  g <> [] -> 0 < first_weight g <= weight g.
Proof.
  assert (L : forall s, 0 <= len s).
  { induction s as [|c s IH]; simpl; [lia|].
    destruct (is_continuation c); lia. }
  assert (W : forall h, 0 <= weight h).
  { induction h as [|l h IH]; simpl; [lia|]. pose proof (L l). lia. }
  destruct g as [|l g]; [congruence|]. intros _. simpl.
  pose proof (L l). pose proof (W g). lia.
Qed.

(** X7.  The chunker packs greedily.  The chunks are the joined groups
    of a split of the lines into consecutive non-empty groups in which
    no group could have taken the first line of the next one without
    going over [max_len]; there are never more chunks than lines, none
    for no line, and when all the lines fit they make one chunk. *)
Theorem chunk_lines_greedy (lines : list string) (max_len : Z) :
  (exists groups : list (list string),
     _chunk_lines lines max_len = map (join newline) groups
     /\ concat groups = lines
     /\ Forall (fun g => g <> []) groups
     /\ tight max_len groups)
  /\ (length (_chunk_lines lines max_len) <= length lines)%nat
  /\ (_chunk_lines lines max_len = [] <-> lines = [])
  /\ (lines <> [] -> weight lines <= max_len ->
      _chunk_lines lines max_len = [join newline lines]).
Proof.
  destruct (chunk_lines_groups lines max_len) as (groups & Hc & Hs & Hn & Ht).
  split; [exists groups; auto|]. split; [|split].
  - rewrite Hc, length_map, <- Hs. now apply concat_length_lower.
  - rewrite Hc, <- Hs. split.
    + destruct groups; [reflexivity|discriminate].
    + destruct groups as [|g groups]; [reflexivity|].
      inversion Hn as [|? ? Hg _]. destruct g; [congruence|discriminate].
  - intros Hl Hw. rewrite Hc.
    destruct groups as [|g [|h rest]].
    + simpl in Hs. congruence.
    + simpl in Hs |- *. rewrite app_nil_r in Hs. now subst g.
    + exfalso. simpl in Ht. destruct Ht as [Ht _].
      inversion Hn as [|? ? _ Hn']. inversion Hn' as [|? ? Hh _].
      pose proof (weight_nonneg_first h Hh) as [_ Hfw].
      assert (Hr : 0 <= weight (concat rest)).
      { clear. induction (concat rest) as [|l r IH]; simpl; [lia|].
        assert (0 <= len l).
        { clear. induction l as [|c s IH]; simpl; [lia|].
          destruct (is_continuation c); lia. }
        lia. }
      rewrite <- Hs in Hw. simpl in Hw. rewrite !weight_app in Hw. lia.
Qed.

(** ** The formatter and the sender *)

Lemma occurs_here (k rest : string) : occurs k (k ++ rest).
Proof. exists "", rest. reflexivity. Qed.

Lemma occurs_refl (k : string) : occurs k k.
Proof.
  exists "", "". rewrite append_nil.
  induction k as [|c k IH]; [reflexivity|]. rewrite append_cons. now f_equal.
Qed.

Lemma occurs_app_r (k a b : string) : occurs k b -> occurs k (a ++ b).
Proof.
  intros (pre & post & ->). exists (a ++ pre)%string, post.
  now rewrite string_app_assoc.
Qed.

Lemma occurs_app_l (k a b : string) : occurs k a -> occurs k (a ++ b).
Proof.
  intros (pre & post & ->). exists pre, (post ++ b)%string.
  now rewrite !string_app_assoc.
Qed.

(** The status as the line shows it. *)
Lemma replace_underscores_clean (s : string) :
  ~ occurs "_" (replace_underscores s).
Proof.
  intros (pre & post & E). revert s E.
  induction pre as [|c pre IH]; intros s E.
  - rewrite append_nil in E. destruct s as [|d s]; [discriminate|].
    simpl in E. rewrite append_cons in E. injection E as E _.
    destruct (Ascii.eqb d "_") eqn:D; [discriminate|].
    apply Ascii.eqb_neq in D. congruence.
  - destruct s as [|d s]; [discriminate|].
    simpl in E. rewrite append_cons in E. injection E as _ E.
    now apply (IH s).
Qed.

(** X8.  [_format_assignment_line] raises iff the status of the record
    is [null], and then [AttributeError]; otherwise the line shows the
    course name, the assignment name, the status with every underscore
    replaced, the percentage, and the url when there is one (a record
    without a url ends with the closing parenthesis). *)
Theorem format_line_shows (r : Rec.t) :
  (Rec.status r = Null <-> exists e, _format_assignment_line r = Raise e)
  /\ (Rec.status r = Null ->
      _format_assignment_line r = Raise AttributeError)
  /\ (forall status,
        get_default (Rec.status r) "unknown" = Some status ->
        exists line,
          _format_assignment_line r = Ok line
          /\ occurs (fmt (get_default (Rec.course_name r) "Unnamed Course"))
               line
          /\ occurs (fmt (get_default (Rec.assignment_name r)
                            "Unnamed Assignment")) line
          /\ occurs (replace_underscores status) line
          /\ ~ occurs "_" (replace_underscores status)
          /\ occurs (_format_percent r) line
          /\ (forall u, get (Rec.url r) = Some u -> u <> "" ->
                exists body, line = (body ++ " <" ++ u ++ ">")%string)
          /\ (get (Rec.url r) = None \/ get (Rec.url r) = Some "" ->
              exists body, line = (body ++ ")")%string)).
Proof.
  unfold _format_assignment_line. split; [|split].
  - destruct (Rec.status r) as [| |st]; simpl; split;
      try discriminate; eauto; intros [e E]; try discriminate.
    + destruct (get (Rec.url r)) as [u|]; [destruct (str_truthy u)|];
        discriminate.
    + destruct (get (Rec.url r)) as [u|]; [destruct (str_truthy u)|];
        discriminate.
  - now intros ->.
  - intros status ->.
    set (course := fmt (get_default (Rec.course_name r) "Unnamed Course")).
    set (name := fmt (get_default (Rec.assignment_name r)
                        "Unnamed Assignment")).
    set (st := replace_underscores status).
    set (pc := _format_percent r).
    assert (L : forall tail,
              occurs course ("**" ++ course ++ "** — " ++ name ++ " (" ++ st
                               ++ ", " ++ pc ++ tail)
              /\ occurs name ("**" ++ course ++ "** — " ++ name ++ " (" ++ st
                                ++ ", " ++ pc ++ tail)
              /\ occurs st ("**" ++ course ++ "** — " ++ name ++ " (" ++ st
                              ++ ", " ++ pc ++ tail)
              /\ occurs pc ("**" ++ course ++ "** — " ++ name ++ " (" ++ st
                              ++ ", " ++ pc ++ tail)).
    { intros tail. repeat split;
        repeat (first [apply occurs_here | apply occurs_app_r]). }
    assert (A : forall x,
              (("**" ++ course ++ "** — " ++ name ++ " (" ++ st
                  ++ ", " ++ pc ++ ")") ++ x
               = "**" ++ course ++ "** — " ++ name ++ " (" ++ st
                   ++ ", " ++ pc ++ ")" ++ x)%string).
    { intros x. now rewrite !string_app_assoc. }
    assert (C := replace_underscores_clean status). fold st in C.
    destruct (get (Rec.url r)) as [u|] eqn:U.
    + destruct (str_truthy u) eqn:T.
      * eexists. split; [reflexivity|]. rewrite A.
        destruct (L (")" ++ " <" ++ u ++ ">")%string) as (L1 & L2 & L3 & L4).
        split; [exact L1|]. split; [exact L2|]. split; [exact L3|].
        split; [exact C|]. split; [exact L4|]. split.
        -- intros u' E _. injection E as <-. rewrite <- A. eauto.
        -- intros [E|E]; [discriminate|]. injection E as ->. discriminate.
      * eexists. split; [reflexivity|].
        destruct (L ")") as (L1 & L2 & L3 & L4).
        split; [exact L1|]. split; [exact L2|]. split; [exact L3|].
        split; [exact C|]. split; [exact L4|]. split.
        -- intros u' E N. injection E as <-.
           apply str_truthy_nonempty in N. congruence.
        -- intros _. eexists.
           rewrite <- !string_app_assoc. reflexivity.
    + eexists. split; [reflexivity|].
      destruct (L ")") as (L1 & L2 & L3 & L4).
      split; [exact L1|]. split; [exact L2|]. split; [exact L3|].
      split; [exact C|]. split; [exact L4|]. split.
      * intros u' E. discriminate.
      * intros _. eexists. rewrite <- !string_app_assoc. reflexivity.
Qed.

(** X9.  Every record the collector builds formats without error, and
    its line shows the label of its status in parentheses before the
    percentage: [missing] for a missing submission, else [late] for a
    late one, else [low score]. *)
Theorem records_format (course : Course.t) (a : Assignment.t) (r : Rec.t) :
  _assignment_to_record course a = Ok r ->
  exists line,
    _format_assignment_line r = Ok line
    /\ occurs (" (" ++ shown_label a ++ ", " ++ _format_percent r ++ ")")
         line.
Proof.
  unfold _assignment_to_record.
  destruct (record_percent _ _) as [p|e]; simpl; [|discriminate].
  intros E. injection E as <-.
  unfold _format_assignment_line. cbn [Rec.status get_default Rec.url].
  set (pc := _format_percent _).
  assert (S : replace_underscores (record_status (submission_or_empty a))
              = shown_label a).
  { unfold record_status, shown_label, is_missing, is_late.
    destruct (truth (get (Submission.missing (submission_or_empty a))));
      [reflexivity|].
    destruct (truth (get (Submission.late (submission_or_empty a))));
      reflexivity. }
  rewrite S.
  assert (O : forall head tail,
            occurs (" (" ++ shown_label a ++ ", " ++ pc ++ ")")
              (head ++ " (" ++ shown_label a ++ ", " ++ pc ++ ")" ++ tail)).
  { intros head tail. apply occurs_app_r.
    exists "", tail. rewrite append_nil. now rewrite !string_app_assoc. }
  destruct (get (entry (get (Assignment.html_url a)))) as [u|].
  - destruct (str_truthy u).
    + eexists. split; [reflexivity|].
      rewrite !string_app_assoc.
      apply occurs_app_r, occurs_app_r, occurs_app_r, occurs_app_r.
      exists "", (" <" ++ u ++ ">")%string. rewrite append_nil.
      now rewrite !string_app_assoc.
    + eexists. split; [reflexivity|].
      apply occurs_app_r, occurs_app_r, occurs_app_r, occurs_app_r.
      apply occurs_refl.
  - eexists. split; [reflexivity|].
    apply occurs_app_r, occurs_app_r, occurs_app_r, occurs_app_r.
    apply occurs_refl.
Qed.

(** The third test assignment of the repository, late: a record with
    the label [late]. *)
Lemma records_format_witness :
  exists line,
    and_then (_assignment_to_record (Fixtures.course 1 "Biology")
                (set_late (Val true) (Fixtures.scored 4 10)))
      _format_assignment_line = Ok line
    /\ occurs " (late, 40.00%)" line.
Proof.
  destruct (_assignment_to_record (Fixtures.course 1 "Biology")
              (set_late (Val true) (Fixtures.scored 4 10))) as [r|e] eqn:E;
    [|discriminate].
  destruct (records_format _ _ r E) as (line & F & O).
  exists line. simpl. split; [exact F|].
  vm_compute in E. injection E as <-. exact O.
Defined.

Lemma format_line_raises (r : Rec.t) (e : exn) :
  _format_assignment_line r = Raise e -> null_status r /\ e = AttributeError.
Proof.
  unfold _format_assignment_line, null_status.
  destruct (Rec.status r) as [| |st]; simpl.
  - destruct (get (Rec.url r)) as [u|]; [destruct (str_truthy u)|];
      discriminate.
  - intros E. injection E as <-. auto.
  - destruct (get (Rec.url r)) as [u|]; [destruct (str_truthy u)|];
      discriminate.
Qed.

Lemma format_line_null (r : Rec.t) :
  null_status r -> _format_assignment_line r = Raise AttributeError.
Proof. unfold _format_assignment_line, null_status. now intros ->. Qed.

Lemma map_format_raises (records : list Rec.t) :
  Exists null_status records
  <-> map_result _format_assignment_line records = Raise AttributeError.
Proof.
  induction records as [|r records IH]; simpl.
  - split; [intros H; inversion H|discriminate].
  - destruct (_format_assignment_line r) as [line|e] eqn:F; simpl.
    + destruct (map_result _format_assignment_line records) as [ls|e] eqn:M;
        simpl.
      * split; [|discriminate]. intros H. inversion H as [? ? N|? ? N]; subst.
        -- rewrite (format_line_null r N) in F. discriminate.
        -- apply IH in N. discriminate.
      * split.
        -- intros H. inversion H as [? ? N|? ? N]; subst.
           ++ rewrite (format_line_null r N) in F. discriminate.
           ++ apply IH in N. exact N.
        -- intros E. right. apply IH. exact E.
    + apply format_line_raises in F as [N ->].
      split; [reflexivity|]. intros _. now left.
Qed.


(** X10.  The payloads.  They cannot be made iff some record has a
    [null] status ([AttributeError], before anything is posted).
    Otherwise there is at least one payload, each payload is shorter
    than 1900 characters unless it is the line of a single record, and
    for a non-empty report the payloads joined with newlines are the
    lines of the records joined with newlines. *)
Theorem payloads_bounded (records : list Rec.t) :
  (Exists null_status records
   <-> payloads_of records = Raise AttributeError)
  /\ (forall lines,
        map_result _format_assignment_line records = Ok lines ->
        exists payloads,
          payloads_of records = Ok payloads
          /\ payloads <> []
          /\ Forall (fun p => len p < default_max_len \/ In p lines)
               payloads
          /\ (records <> [] ->
              join newline payloads = join newline lines)).
Proof.
  split.
  - rewrite map_format_raises. unfold payloads_of.
    destruct records as [|r records]; [simpl; split; discriminate|].
    destruct (map_result _format_assignment_line (r :: records));
      split; congruence.
  - intros lines M. unfold payloads_of.
    destruct records as [|r records].
    + exists [all_clear]. split; [reflexivity|]. split; [discriminate|].
      split; [|congruence]. constructor; [|constructor]. left. reflexivity.
    + rewrite M.
      destruct (chunk_lines_groups lines default_max_len)
        as (groups & Hc & Hs & Hn & _).
      exists (_chunk_lines lines default_max_len).
      split; [reflexivity|]. split; [|split].
      * rewrite Hc. destruct groups as [|g groups]; [|discriminate].
        simpl in Hs. subst lines. simpl in M.
        destruct (_format_assignment_line r); simpl in M; [|discriminate].
        destruct (map_result _format_assignment_line records);
          discriminate.
      * destruct (chunk_inv_loop default_max_len lines [] _
                    (chunk_inv_start default_max_len))
          as (gs & Gc & Gs & Gf & _ & Gcur).
        simpl in Gs. unfold _chunk_lines.
        assert (F : forall g, fits default_max_len g ->
                      (forall l, In l g -> In l lines) ->
                      len (join newline g) < default_max_len
                      \/ In (join newline g) lines).
        { intros g [Hg [H|(l & -> & _)]] Sub.
          - left. pose proof (len_join g Hg). lia.
          - right. apply Sub. now left. }
        assert (Sg : forall g, In g gs -> forall l, In l g -> In l lines).
        { intros g Hg l Hl. rewrite <- Gs. apply in_or_app. left.
          apply in_concat. eauto. }
        assert (Fg : Forall (fun p => len p < default_max_len \/ In p lines)
                       (map (join newline) gs)).
        { apply List.Forall_forall. intros p Hp.
          apply in_map_iff in Hp as (g & <- & Hg).
          apply F; [|now apply Sg].
          rewrite List.Forall_forall in Gf. now apply Gf. }
        destruct (current (fold_left (chunk_step default_max_len) lines
                             (mk_chunker [] [] 0))) as [|l cur] eqn:Cur.
        -- cbn [nonempty]. now rewrite Gc.
        -- cbn [nonempty]. rewrite Gc. apply Forall_app. split; [exact Fg|].
           constructor; [|constructor].
           destruct Gcur as [H|H]; [discriminate|].
           apply (F (l :: cur)); [exact H|]. intros l' Hl'. rewrite <- Gs.
           apply in_or_app. now right.
      * intros _. rewrite Hc, <- Hs. now apply join_concat.
Qed.

Section SenderExtras.

Variable env_webhook_url : option string.
Variable DEFAULT_DISCORD_WEBHOOK_URL : option string.
Variable post_ok : string -> string -> bool.

Let send :=
  send_discord_notifications env_webhook_url DEFAULT_DISCORD_WEBHOOK_URL
    post_ok.

Lemma chosen_url_settled (webhook_url : option string) (url : string) :
  chosen_url webhook_url env_webhook_url DEFAULT_DISCORD_WEBHOOK_URL url ->
  or_else (or_else webhook_url env_webhook_url) DEFAULT_DISCORD_WEBHOOK_URL
  = Some url
  /\ str_truthy url = true.
Proof.
  intros [N H]. apply str_truthy_nonempty in N. split; [|exact N].
  destruct H as [->|[([->| ->] & ->)|([->| ->] & [->| ->] & ->)]];
    unfold or_else; simpl; repeat (rewrite N; simpl); reflexivity.
Qed.

(** The posts made for the payloads, one after the other. *)
Lemma post_all_outcome (url : string) (payloads : list string) :
  (Forall (fun p => post_ok url p = true) payloads
   /\ post_all post_ok url payloads = (map (pair url) payloads, Ok tt))
  \/ (exists pre p post,
        payloads = pre ++ p :: post
        /\ Forall (fun p => post_ok url p = true) pre
        /\ post_ok url p = false
        /\ post_all post_ok url payloads
           = (map (pair url) (pre ++ [p]), Raise RuntimeError)).
Proof.
  induction payloads as [|p payloads IH]; simpl.
  - left. split; [constructor|reflexivity].
  - destruct (post_ok url p) eqn:P.
    + destruct IH as [[F E]|(pre & q & post & -> & F & Q & E)]; rewrite E.
      * left. split; [now constructor|reflexivity].
      * right. exists (p :: pre), q, post.
        split; [reflexivity|]. split; [now constructor|].
        split; [exact Q|reflexivity].
    + right. exists [], p, payloads. repeat split; auto.
Qed.

(** X11.  What the sender does with its payloads.  With no url
    configured (argument, environment variable and default all unset or
    empty) it posts nothing, prints its notice and returns, whatever
    the records.  Otherwise, with [url] the first non-empty of the
    three, it posts the payloads to [url] in order and returns when
    every post goes through, and stops at the first post that fails
    with [RuntimeError], the later payloads unsent. *)
Theorem posts_in_order (records : list Rec.t) (webhook_url : option string) :
  ((webhook_url = None \/ webhook_url = Some "") ->
   (env_webhook_url = None \/ env_webhook_url = Some "") ->
   (DEFAULT_DISCORD_WEBHOOK_URL = None
    \/ DEFAULT_DISCORD_WEBHOOK_URL = Some "") ->
   send records webhook_url = mk_sent [not_configured] [] (Ok tt))
  /\ (forall url payloads,
        chosen_url webhook_url env_webhook_url DEFAULT_DISCORD_WEBHOOK_URL
          url ->
        payloads_of records = Ok payloads ->
        printed (send records webhook_url) = []
        /\ ((Forall (fun p => post_ok url p = true) payloads
             /\ posted (send records webhook_url) = map (pair url) payloads
             /\ outcome (send records webhook_url) = Ok tt)
            \/ (exists pre p post,
                  payloads = pre ++ p :: post
                  /\ Forall (fun p => post_ok url p = true) pre
                  /\ post_ok url p = false
                  /\ posted (send records webhook_url)
                     = map (pair url) (pre ++ [p])
                  /\ outcome (send records webhook_url)
                     = Raise RuntimeError))).
Proof.
  unfold send, send_discord_notifications. split.
  - intros [->| ->] [->| ->] [->| ->]; reflexivity.
  - intros url payloads C P.
    destruct (chosen_url_settled webhook_url url C) as [-> ->]. rewrite P.
    destruct (post_all_outcome url payloads)
      as [[F E]|(pre & p & post & E0 & F & Q & E)]; rewrite E; simpl.
    + split; [reflexivity|]. left. auto.
    + split; [reflexivity|]. right. exists pre, p, post. auto.
Qed.

End SenderExtras.

(** The url of the environment wins over the default; the webhook
    refuses the post: one post made, and the call ends in
    [RuntimeError]. *)
Lemma posts_in_order_witness :
  let s :=
    send_discord_notifications (Some "https://discord.test/hook")
      (Some "https://discord.test/old") (fun _ _ => false) [] None in
  posted s = [("https://discord.test/hook", all_clear)]
  /\ outcome s = Raise RuntimeError.
Proof.
  destruct (proj2 (posts_in_order (Some "https://discord.test/hook")
                     (Some "https://discord.test/old")
                     (fun _ _ => false) [] None)
              "https://discord.test/hook" [all_clear])
    as [_ [(F & _)|(pre & p & post & E & _ & _ & P & O)]].
  - split; [discriminate|]. right. left. split; [now left|reflexivity].
  - reflexivity.
  - exfalso. inversion F. discriminate.
  - split; [|exact O]. rewrite P. destruct pre as [|q pre].
    + now injection E as <- _.
    + injection E as _ E. destruct pre; discriminate.
Defined.

(** ** Pagination *)

Section PagesExtras.

Context {world A : Type}.
Variable http_get : string -> world -> option (response A) * world.

Lemma get_all_pages_loop_chain (url : option string) (w w' : world)
    (pages : list (body A)) :
  chain http_get url w pages w' ->
  forall fuel out,
    get_all_pages_loop http_get fuel url out w
    = if (length pages <=? fuel)%nat
      then Some (Ok (out ++ flat_map items_of pages), w')
      else None.
Proof.
  induction 1 as [w|w|u w w1 w2 r pages N G C IH]; intros fuel out.
  - destruct fuel; simpl; now rewrite app_nil_r.
  - destruct fuel; simpl; now rewrite app_nil_r.
  - apply str_truthy_nonempty in N.
    destruct fuel as [|fuel]; simpl; rewrite N; [reflexivity|].
    unfold request_json, request. rewrite G, IH.
    destruct (length pages <=? fuel)%nat; [|reflexivity].
    now rewrite <- app_assoc.
Qed.

(** X12.  [get_all_pages] follows the "next" links until there is none
    (or an empty one) and returns the items of all the pages in order,
    a body that is not a list counting as one item; it makes exactly
    one request per page: with fewer it has not finished. *)
Theorem get_all_pages_collects (url : string) (w w' : world)
    (pages : list (body A)) (fuel : nat) :
  chain http_get (Some url) w pages w' ->
  get_all_pages http_get fuel url w
  = if (length pages <=? fuel)%nat
    then Some (Ok (flat_map items_of pages), w')
    else None.
Proof.
  intros C. unfold get_all_pages.
  now rewrite (get_all_pages_loop_chain _ _ _ _ C fuel []).
Qed.

Lemma get_all_pages_loop_broken (url : option string) (w w' : world)
    (n : nat) :
  broken http_get url w n w' ->
  forall fuel out,
    get_all_pages_loop http_get fuel url out w
    = if (n <=? fuel)%nat then Some (Raise RuntimeError, w') else None.
Proof.
  induction 1 as [u w w' N G|u w w1 w' r n N G B IH]; intros fuel out;
    apply str_truthy_nonempty in N.
  - destruct fuel as [|fuel]; simpl; rewrite N; [reflexivity|].
    unfold request_json, request. now rewrite G.
  - destruct fuel as [|fuel]; simpl; rewrite N; [reflexivity|].
    unfold request_json, request. now rewrite G, IH.
Qed.

(** X13.  When the [n]-th request of the walk fails, [get_all_pages]
    raises [RuntimeError] after exactly [n] requests, from the world
    that request left: the items of the pages before are not
    returned. *)
Theorem get_all_pages_fails (url : string) (w w' : world) (n fuel : nat) :
  broken http_get (Some url) w n w' ->
  get_all_pages http_get fuel url w
  = if (n <=? fuel)%nat then Some (Raise RuntimeError, w') else None.
Proof.
  intros B. unfold get_all_pages.
  now rewrite (get_all_pages_loop_broken _ _ _ _ B fuel []).
Qed.

(** X14.  The loop has no guard against a cycle: when a page links to
    itself in every world, [get_all_pages] never returns, however many
    requests it may make. *)
Theorem get_all_pages_cycle (url : string) :
  url <> "" ->
  (forall w, exists r w',
     http_get url w = (Some r, w') /\ next_url r = Some url) ->
  forall fuel w, get_all_pages http_get fuel url w = None.
Proof.
  intros N Cy fuel. unfold get_all_pages. generalize (@nil A).
  apply str_truthy_nonempty in N.
  induction fuel as [|fuel IH]; intros out w; simpl; rewrite N;
    [reflexivity|].
  destruct (Cy w) as (r & w' & G & L).
  unfold request_json, request. rewrite G, L. apply IH.
Qed.

End PagesExtras.

(** Three pages, three requests. *)
Lemma get_all_pages_collects_witness :
  get_all_pages Pages.http_get 3 "page1" 0%nat
  = Some (Ok [1; 2; 3; 4; 5], 3%nat)
  /\ get_all_pages Pages.http_get 2 "page1" 0%nat = None.
Proof.
  assert (C : chain Pages.http_get (Some "page1") 0%nat
                [Items [1; 2]; Single 3; Items [4; 5]] 3%nat).
  { apply (chain_page _ "page1" 0%nat 1%nat 3%nat
             (mk_response (Items [1; 2]) (Some "page2")));
      [discriminate|reflexivity|].
    apply (chain_page _ "page2" 1%nat 2%nat 3%nat
             (mk_response (Single 3) (Some "page3")));
      [discriminate|reflexivity|].
    apply (chain_page _ "page3" 2%nat 3%nat 3%nat
             (mk_response (Items [4; 5]) (Some "")));
      [discriminate|reflexivity|].
    apply chain_empty_link. }
  split.
  - apply (get_all_pages_collects _ _ _ _ _ 3%nat C).
  - apply (get_all_pages_collects _ _ _ _ _ 2%nat C).
Defined.

(** The second request fails: [RuntimeError], the item of the first
    page is gone. *)
Lemma get_all_pages_fails_witness :
  get_all_pages Pages.http_get 5 "half" 0%nat
  = Some (Raise RuntimeError, 2%nat).
Proof.
  apply (get_all_pages_fails Pages.http_get "half" 0%nat 2%nat
           2%nat 5%nat).
  apply (broken_later _ "half" 0%nat 1%nat 2%nat
           (mk_response (Items [9]) (Some "gone")));
    [discriminate|reflexivity|].
  apply broken_here; [discriminate|reflexivity].
Defined.

(** A page that links to itself. *)
Lemma get_all_pages_cycle_witness :
  get_all_pages Pages.http_get 1000 "loop" 0%nat = None.
Proof.
  apply (get_all_pages_cycle Pages.http_get "loop");
    [discriminate|].
  intros w. eexists. eexists. split; reflexivity.
Defined.

(** ** The command line *)





Section MainExtras.

Variable isoparse : string -> py_result datetime.
Context {world : Type}.
Variable http_courses : world -> option (list Course.t) * world.
Variable http_grading_periods :
  option Z -> world -> option periods_payload * world.
Variable http_assignments :
  option Z -> world -> option (list Assignment.t) * world.
Variable env_webhook_url : option string.
Variable DEFAULT_DISCORD_WEBHOOK_URL : option string.
Variable post_ok : string -> string -> bool.

Let collect :=
  collect_results isoparse http_courses http_grading_periods http_assignments.


End MainExtras.

(** ** The simpler script *)

Lemma truediv_zero (x y : pynum) :
  truthy y = false ->
  exists e, truediv x y = Raise e
            /\ (e = ZeroDivisionError \/ e = OverflowError).
Proof.
  assert (F : forall n, (exists f, float_of_int n = Ok f)
                        \/ float_of_int n = Raise OverflowError).
  { intros n. unfold float_of_int.
    destruct (binary_normalize prec emax n 0 false); eauto. }
  destruct x as [a|f], y as [b|g]; simpl; intros T;
    apply negb_false_iff in T.
  - unfold int_true_divide. rewrite T. eauto.
  - destruct (F a) as [[f ->]| ->]; [|eauto]. rewrite T. eauto.
  - apply Z.eqb_eq in T as ->. simpl. eauto.
  - rewrite T. eauto.
Qed.

Lemma scored_submission (a : Assignment.t) (score : pynum) :
  score_of a = Some score ->
  exists sub,
    Assignment.submission a = Val sub
    /\ Submission.truthy sub = true
    /\ submission_or_empty a = sub.
Proof.
  unfold score_of, submission_or_empty.
  destruct (Assignment.submission a) as [| |sub]; simpl; try discriminate.
  destruct (Submission.truthy sub) eqn:T; [|discriminate].
  intros _. exists sub. auto.
Qed.

(** What [find_bad_assignments] does with an assignment that has a
    score. *)
Lemma assess_scored (a : Assignment.t) (score : pynum) :
  score_of a = Some score ->
  CheckAssignments.assess a
  = match
      CheckAssignments.percent (Some score)
        (get_default (Assignment.points_possible a) (PyInt 100))
    with
    | Raise e => Raise e
    | Ok percent =>
        if is_missing a || CheckAssignments.below_50 percent
        then Ok (Some percent) else Ok None
    end.
Proof.
  intros S. destruct (scored_submission a score S) as (sub & E & T & O).
  unfold CheckAssignments.assess, is_missing. rewrite E. simpl. rewrite T.
  simpl. unfold score_of in S. rewrite O in *. rewrite S.
  unfold CheckAssignments.percent.
  destruct (get_default (Assignment.points_possible a) (PyInt 100))
    as [points|]; [|reflexivity].
  destruct (percent_of score points) as [pc|e]; [|reflexivity].
  now destruct (Submission.missing sub) as [| |[|]].
Qed.

Lemma undividable_raises (a : Assignment.t) :
  undividable a ->
  exists e,
    CheckAssignments.assess a = Raise e
    /\ (e = TypeError \/ e = ZeroDivisionError \/ e = OverflowError).
Proof.
  intros (score & S & [N|(points & P & T)]); rewrite (assess_scored a score S).
  - rewrite N. simpl. eauto.
  - unfold points_of in P.
    destruct (Assignment.points_possible a) as [| |pts]; try discriminate.
    injection P as ->. simpl. unfold percent_of.
    destruct (truediv_zero score points T) as (e & -> & He).
    exists e. split; [reflexivity|]. tauto.
Qed.

Lemma scan_raises (name : option string) (assignments : list Assignment.t)
    (a : Assignment.t) (e : exn) :
  CheckAssignments.assess a = Raise e -> In a assignments ->
  forall bad, exists e', CheckAssignments.scan name assignments bad = Raise e'.
Proof.
  intros A. induction assignments as [|b rest IH]; intros I bad; [easy|].
  simpl. destruct I as [->|I].
  - rewrite A. eauto.
  - destruct (CheckAssignments.assess b) as [[pc|]|x]; [| |eauto].
    + destruct (CheckAssignments.bad_line name b pc); [|eauto]. now apply IH.
    + now apply IH.
Qed.

Section ScriptExtras.

Variable isoparse : string -> py_result datetime.

(** X16.  Inside the window, for an assignment with a score and
    non-zero points whose percentage can be computed, both scripts
    decide on the same percentage: [canvas_test.py] includes it when
    missing or at most 50, [check_assignments.py] reports it when
    missing or below 50.  They agree unless the percentage is exactly
    50 and the assignment is not missing. *)
Theorem filters_agree_off_50 (a : Assignment.t)
    (period_ids : gset (option Z)) (ranges : list (datetime * datetime))
    (score points : pynum) (p : float) :
  belongs isoparse a period_ids ranges = Ok true ->
  score_of a = Some score ->
  points_of a = Some points ->
  truthy points = true ->
  percent_of score points = Ok p ->
  should_include_assignment isoparse a period_ids ranges default_threshold
  = Ok (is_missing a || float_le p (lit 50))
  /\ CheckAssignments.flagged a = Ok (is_missing a || float_lt p (lit 50))
  /\ (should_include_assignment isoparse a period_ids ranges
        default_threshold
      <> CheckAssignments.flagged a
      <-> is_missing a = false /\ float_eq p (lit 50) = true).
Proof.
  intros B S P T Pc.
  assert (I : should_include_assignment isoparse a period_ids ranges
                default_threshold
              = Ok (is_missing a || float_le p (lit 50))).
  { rewrite (should_include_of_belongs isoparse a period_ids ranges _ true B).
    simpl. rewrite S, P, T, Pc. simpl.
    now destruct (is_missing a). }
  assert (F : CheckAssignments.flagged a
              = Ok (is_missing a || float_lt p (lit 50))).
  { unfold CheckAssignments.flagged. rewrite (assess_scored a score S).
    unfold points_of in P.
    destruct (Assignment.points_possible a) as [| |pts]; try discriminate.
    injection P as ->.
    cbn [get_default CheckAssignments.percent]. rewrite Pc.
    cbn [CheckAssignments.below_50].
    now destruct (is_missing a || float_lt p (lit 50)). }
  split; [exact I|]. split; [exact F|]. rewrite I, F.
  pose proof (float_le_cases p (lit 50)) as C.
  assert (X : float_eq p (lit 50) = true -> float_lt p (lit 50) = false).
  { unfold float_eq, float_lt, SFeqb, SFltb.
    destruct (SFcompare p (lit 50)) as [[]|]; congruence. }
  destruct (is_missing a); cbn [orb].
  - split; [congruence|]. intros [? _]. discriminate.
  - destruct (float_eq p (lit 50)) eqn:Q.
    + rewrite (X eq_refl). rewrite (proj2 C) by auto.
      split; [auto|]. intros _. discriminate.
    + destruct (float_lt p (lit 50)) eqn:L.
      * rewrite (proj2 C) by auto. split; [congruence|]. intros [_ ?].
        discriminate.
      * destruct (float_le p (lit 50)) eqn:Le.
        -- destruct (proj1 C eq_refl); discriminate.
        -- split; [congruence|]. intros [_ ?]. discriminate.
Qed.

(** X17.  An assignment with a score whose [points_possible] is [null]
    or zero.  [canvas_test.py] takes it without an error, and includes
    it only when it is in the window and missing.
    [check_assignments.py] raises on it ([TypeError] for [null], a
    division error for zero) and catches nothing: one such assignment
    anywhere in a course makes the scan of the course fail, whatever
    was gathered before. *)
Theorem undividable_crashes (a : Assignment.t)
    (period_ids : gset (option Z)) (ranges : list (datetime * datetime))
    (thr : float) :
  undividable a ->
  (exists b,
     should_include_assignment isoparse a period_ids ranges thr = Ok b
     /\ (b = true ->
         belongs isoparse a period_ids ranges = Ok true
         /\ is_missing a = true))
  /\ (exists e,
        CheckAssignments.assess a = Raise e
        /\ (e = TypeError \/ e = ZeroDivisionError \/ e = OverflowError))
  /\ (forall name assignments bad,
        In a assignments ->
        exists e, CheckAssignments.scan name assignments bad = Raise e).
Proof.
  intros U. split; [|split].
  - destruct (belongs_returns isoparse a period_ids ranges) as [b B].
    rewrite (should_include_of_belongs isoparse a period_ids ranges thr b B).
    destruct b; simpl; [|exists false; split; [reflexivity|discriminate]].
    destruct (is_missing a); [exists true; auto|].
    exists false. split; [|discriminate].
    destruct U as (score & S & [N|(points & P & T)]).
    + rewrite S. unfold points_of. now rewrite N.
    + now rewrite S, P, T.
  - now apply undividable_raises.
  - intros name assignments bad I.
    destruct (undividable_raises a U) as (e & A & _).
    apply (scan_raises name assignments a e A I).
Qed.

End ScriptExtras.

(** Exactly 50%: included by the one, not reported by the other. *)
Lemma filters_agree_off_50_witness :
  should_include_assignment IsoParse.isoparse (Fixtures.scored 5 10)
    Fixtures.period_ids Fixtures.ranges default_threshold = Ok true
  /\ CheckAssignments.flagged (Fixtures.scored 5 10) = Ok false.
Proof.
  destruct (filters_agree_off_50 IsoParse.isoparse (Fixtures.scored 5 10)
              Fixtures.period_ids Fixtures.ranges (PyInt 5) (PyInt 10)
              (mul100 (S754_finite false 4503599627370496 (-53)))
              eq_refl eq_refl eq_refl eq_refl eq_refl) as (I & F & _).
  split; [rewrite I|rewrite F]; reflexivity.
Defined.

(** A score of 3 out of 0 points: excluded by the one, the scan of the
    other ends in [ZeroDivisionError]. *)
Lemma undividable_crashes_witness :
  should_include_assignment IsoParse.isoparse Script.zero_points
    Fixtures.period_ids Fixtures.ranges default_threshold = Ok false
  /\ CheckAssignments.scan (Some "Biology")
       [Fixtures.named "Essay" (Fixtures.scored 4 10); Script.zero_points] []
     = Raise ZeroDivisionError.
Proof.
  assert (U : undividable Script.zero_points).
  { exists (PyInt 3). split; [reflexivity|]. right. exists (PyInt 0).
    split; reflexivity. }
  destruct (undividable_crashes IsoParse.isoparse Script.zero_points
              Fixtures.period_ids Fixtures.ranges default_threshold U)
    as [(b & I & _) [_ S]].
  split.
  - rewrite I. vm_compute in I. symmetry. exact I.
  - destruct (S (Some "Biology")
                [Fixtures.named "Essay" (Fixtures.scored 4 10);
                 Script.zero_points] []) as [e E];
      [right; now left|].
    rewrite E. vm_compute in E. symmetry. exact E.
Defined.

(** ** The report of a course *)

Lemma scan_acc (name : option string) (assignments : list Assignment.t)
    (bad : list string) :
  CheckAssignments.scan name assignments bad
  = match CheckAssignments.scan name assignments [] with
    | Ok lines => Ok (bad ++ lines)
    | Raise e => Raise e
    end.
Proof.
  revert bad. induction assignments as [|a rest IH]; intros bad; simpl.
  - now rewrite app_nil_r.
  - destruct (CheckAssignments.assess a) as [[pc|]|e]; [| |reflexivity].
    + destruct (CheckAssignments.bad_line name a pc) as [line|e];
        [|reflexivity].
      rewrite (IH (bad ++ [line])), (IH [line]).
      destruct (CheckAssignments.scan name rest []); [|reflexivity].
      now rewrite <- app_assoc.
    + apply IH.
Qed.

(** X18.  The scan of a course returns iff every assignment is either
    passed over or can be given its line, and then it returns the lines
    it had followed by one line for each reported assignment, in the
    order of the assignments. *)
Theorem scan_reports (name : option string) (assignments : list Assignment.t)
    (bad out : list string) :
  CheckAssignments.scan name assignments bad = Ok out
  <-> exists lines, report_of name assignments lines /\ out = bad ++ lines.
Proof.
  rewrite scan_acc. split.
  - destruct (CheckAssignments.scan name assignments []) as [lines|e] eqn:S;
      [|discriminate].
    intros E. injection E as <-. exists lines. split; [|reflexivity].
    clear bad. revert lines S.
    induction assignments as [|a rest IH]; intros lines; simpl.
    + intros E. injection E as <-. constructor.
    + destruct (CheckAssignments.assess a) as [[pc|]|e] eqn:A;
        [| |discriminate].
      * destruct (CheckAssignments.bad_line name a pc) as [line|e] eqn:L;
          [|discriminate].
        rewrite scan_acc.
        destruct (CheckAssignments.scan name rest []) as [more|e];
          [|discriminate].
        intros E. injection E as <-. simpl.
        apply report_line; [exists pc; auto|now apply IH].
      * intros S. apply report_skip; [exact A|now apply IH].
  - intros (lines & R & ->).
    assert (S : CheckAssignments.scan name assignments [] = Ok lines).
    { induction R as [|a rest lines P R IH|a rest line lines (pc & A & L) R IH];
        simpl.
      - reflexivity.
      - unfold passed_over in P. now rewrite P.
      - rewrite A, L, scan_acc, IH. reflexivity. }
    now rewrite S.
Qed.

Section WholeScript.

Context {world : Type}.
Variable get_courses : M world (list Course.t).
Variable get_assignments : option Z -> M world (list Assignment.t).

Lemma find_bad_loop_raises (c : Course.t) (course_id : option Z)
    (courses : list Course.t) :
  In c courses ->
  getitem (Course.id c) = Ok course_id ->
  (forall w, exists assignments w',
     get_assignments course_id w = (Ok assignments, w')
     /\ Exists undividable assignments) ->
  forall bad w, exists e w',
    CheckAssignments.find_bad_loop get_assignments courses bad w
    = (Raise e, w').
Proof.
  intros I Id G. induction courses as [|d rest IH]; intros bad w; [easy|].
  simpl. unfold bind, lift.
  destruct (getitem (Course.name d)) as [name|e]; [|eauto].
  destruct (getitem (Course.id d)) as [cid|e] eqn:Idd; [|eauto].
  destruct (get_assignments cid w) as [[assignments|e] w1] eqn:Ga; [|eauto].
  destruct (CheckAssignments.scan name assignments bad) as [bad'|e] eqn:S;
    [|eauto].
  destruct I as [->|I]; [|now apply IH].
  exfalso. rewrite Id in Idd. injection Idd as <-.
  destruct (G w) as (l & w2 & Ga' & U). rewrite Ga in Ga'.
  injection Ga' as <- <-.
  apply List.Exists_exists in U as (a & In_a & U).
  destruct (undividable_raises a U) as (e & A & _).
  destruct (scan_raises name assignments a e A In_a bad) as [e' S'].
  congruence.
Qed.

(** X19.  The script catches nothing: when the assignments of one
    course of the list, whenever they are fetched, hold an assignment
    with a score and [null] or zero points, [find_bad_assignments]
    ends in an exception and returns no line, whatever the other
    courses hold. *)
Theorem script_crashes (c : Course.t) (course_id : option Z)
    (courses : list Course.t) (w w0 : world) :
  get_courses w = (Ok courses, w0) ->
  In c courses ->
  getitem (Course.id c) = Ok course_id ->
  (forall w, exists assignments w',
     get_assignments course_id w = (Ok assignments, w')
     /\ Exists undividable assignments) ->
  exists e w',
    CheckAssignments.find_bad_assignments get_courses get_assignments w
    = (Raise e, w').
Proof.
  intros C I Id G. unfold CheckAssignments.find_bad_assignments, bind.
  rewrite C. now apply (find_bad_loop_raises c course_id).
Qed.

End WholeScript.

(** One course with a score of 3 out of 0 points among its
    assignments. *)
Lemma script_crashes_witness :
  CheckAssignments.find_bad_assignments Script.get_courses
    Script.get_assignments 0%nat
  = (Raise ZeroDivisionError, 2%nat).
Proof.
  destruct (script_crashes Script.get_courses Script.get_assignments
              (Fixtures.course 1 "Biology") (Some 1)
              [Fixtures.course 1 "Biology"] 0%nat 1%nat)
    as (e & w' & E).
  - reflexivity.
  - now left.
  - reflexivity.
  - intros w. eexists. eexists. split; [reflexivity|].
    right. left. exists (PyInt 3). split; [reflexivity|]. right.
    exists (PyInt 0). split; reflexivity.
  - rewrite E. vm_compute in E. symmetry. exact E.
Defined.

(** ** The message of the simpler script *)

Lemma occurs_join (sep line : string) (lines : list string) :
  In line lines -> occurs line (join sep lines).
Proof.
  induction lines as [|x rest IH]; [easy|]. intros I.
  destruct rest as [|y rest].
  - destruct I as [->|[]]. apply occurs_refl.
  - rewrite join_cons by discriminate. destruct I as [->|I].
    + apply occurs_here.
    + apply occurs_app_r, occurs_app_r. now apply IH.
Qed.

(** X20.  [send_to_discord] makes one message whatever the number of
    lines: the all-good text for no line, otherwise a message in which
    every line occurs and whose length is 22 (the header) plus, for
    each line, its length and one; nothing bounds it. *)
Theorem message_holds_all_lines (lines : list string) :
  (lines = [] <->
   CheckAssignmentsSender.message lines = CheckAssignmentsSender.all_good)
  /\ (forall line, In line lines ->
        occurs line (CheckAssignmentsSender.message lines))
  /\ (lines <> [] ->
      len (CheckAssignmentsSender.message lines) = 22 + weight lines).
Proof.
  split; [|split].
  - split; [now intros ->|].
    destruct lines as [|l lines]; [reflexivity|].
    unfold CheckAssignmentsSender.message. intros E.
    apply (f_equal (fun s => String.get 0 s)) in E. discriminate E.
  - intros line I. destruct lines as [|l lines]; [easy|].
    unfold CheckAssignmentsSender.message.
    apply occurs_app_r, occurs_app_r. now apply occurs_join.
  - intros N. destruct lines as [|l lines]; [congruence|].
    unfold CheckAssignmentsSender.message.
    rewrite !len_app, len_newline.
    pose proof (len_join (l :: lines) N) as L.
    change (len CheckAssignmentsSender.to_fix) with 22. lia.
Qed.

(** ** The grading periods *)

Lemma prefix_occurs (k t : string) :
  String.prefix k t = true <-> exists post, t = (k ++ post)%string.
Proof.
  revert t. induction k as [|c k IH]; intros t.
  - split; [intros _; exists t; reflexivity|].
    intros _. now destruct t.
  - destruct t as [|d t]; simpl.
    + split; [discriminate|]. intros [post E]. rewrite append_cons in E.
      discriminate.
    + destruct (ascii_dec c d) as [->|N].
      * rewrite IH. split; intros [post E]; exists post.
        -- rewrite append_cons. now f_equal.
        -- rewrite append_cons in E. now injection E.
      * split; [discriminate|]. intros [post E]. rewrite append_cons in E.
        injection E as E _. congruence.
Qed.

(** [k in t] is the substring test. *)
Lemma contains_occurs (t k : string) : contains t k = true <-> occurs k t.
Proof.
  unfold contains.
  assert (H : (exists n, String.index 0 k t = Some n) <-> occurs k t).
  { induction t as [|b t IH].
    - simpl. destruct k as [|c k].
      + split; [intros _; exists "", ""; reflexivity|eauto].
      + split; [intros [n E]; discriminate|].
        intros (pre & post & E). destruct pre; discriminate.
    - cbn [String.index].
      destruct (String.prefix k (String b t)) eqn:P.
      + split; [|eauto]. intros _. apply prefix_occurs in P as [post ->].
        apply occurs_here.
      + split.
        * destruct (String.index 0 k t) as [n|]; [|intros [n E]; discriminate].
          intros _. destruct (proj1 IH) as (pre & post & ->); [eauto|].
          exists (String b pre), post. now rewrite append_cons.
        * intros (pre & post & E). destruct pre as [|c pre].
          -- rewrite append_nil in E.
             assert (X : String.prefix k (String b t) = true)
               by (apply prefix_occurs; eauto).
             congruence.
          -- rewrite append_cons in E. injection E as _ E.
             destruct (proj2 IH) as [n ->]; [exists pre, post; exact E|].
             eauto. }
  destruct (String.index 0 k t) as [n|].
  - split; [intros _; apply H; eauto|reflexivity].
  - split; [discriminate|]. intros O. apply H in O as [n E]. discriminate.
Qed.

Lemma upper_app (s t : string) : upper (s ++ t) = (upper s ++ upper t)%string.
Proof.
  induction s as [|c s IH]; [reflexivity|].
  rewrite append_cons. simpl. rewrite append_cons. now f_equal.
Qed.

Lemma is_q3_q4_occurs (title : option string) :
  _is_q3_q4 title = true
  <-> exists k, In k q3_q4_keywords /\ occurs k (upper (title_text title)).
Proof.
  unfold _is_q3_q4.
  replace (match title with
           | Some s => if str_truthy s then s else ""
           | None => ""
           end) with (title_text title)
    by (destruct title as [[|c s]|]; reflexivity).
  rewrite existsb_exists.
  split; intros (k & I & C); exists k; (split; [exact I|]);
    now apply contains_occurs.
Qed.

(** X21.  A title names the third or fourth quarter iff, in upper case,
    it has one of the six keywords as a substring; no title ([None] or
    empty) never does.  The test sees neither case nor word
    boundaries: with a matching title, every title that contains it
    matches, in any case of its letters. *)
Theorem is_q3_q4_substring (title : option string) :
  (_is_q3_q4 title = true
   <-> exists k, In k q3_q4_keywords /\ occurs k (upper (title_text title)))
  /\ (title_text title = "" -> _is_q3_q4 title = false)
  /\ (forall longer,
        _is_q3_q4 title = true ->
        (exists pre post,
           upper longer = upper (pre ++ title_text title ++ post)) ->
        _is_q3_q4 (Some longer) = true).
Proof.
  split; [apply is_q3_q4_occurs|]. split.
  - destruct title as [[|c s]|]; simpl; try reflexivity. discriminate.
  - intros longer M (pre & post & E).
    apply is_q3_q4_occurs in M as (k & I & O).
    apply is_q3_q4_occurs. exists k. split; [exact I|].
    simpl. rewrite E, !upper_app. now apply occurs_app_r, occurs_app_l.
Qed.

Section PeriodsExtras.

Variable isoparse : string -> py_result datetime.
Context {world : Type}.
Variable http_grading_periods :
  option Z -> world -> option periods_payload * world.




End PeriodsExtras.
